(** * paste_it: the paste persistence and expiry core of [app.py]

    A shallow embedding of the storage helpers [save_to_gcs] and
    [get_from_gcs], of the submit handler [handle_submit] and of the page
    function [view_paste], together with the properties of the create /
    retrieve interface they implement.

    Conventions.
    - A Python [str] is a [string]; its characters are code points below 256.
    - The Cloud Storage bucket is a finite map from blob names to objects.
    - Everything the program reads from its environment is an explicit
      input: the clock ([now]), the random bytes behind [uuid.uuid4()]
      ([rnd]) and the fate of each storage request (the [faults] script of
      the world).
    - The [json] and [datetime] codecs of the Python runtime are an
      interface, [PyLib]; [PyRef] at the end of the definitions is an
      executable instance of it. *)

From Stdlib Require Import ZArith Ascii String List Lia Bool.
From stdpp Require Import base option list strings gmap.

Local Open Scope Z_scope.
#[local] Set Warnings "-register-all".
#[local] Set Default Proof Using "Type".

(** ** Python strings *)

Module Str.

(** [len(s)] *)
Definition len (s : string) : nat := String.length s.

(** [s[:n]] *)
Fixpoint take (n : nat) (s : string) : string :=
  match n, s with
  | S n', String c s' => String c (take n' s')
  | _, _ => EmptyString
  end.

(** [s[n:]] *)
Fixpoint drop (n : nat) (s : string) : string :=
  match n, s with
  | S n', String _ s' => drop n' s'
  | _, _ => s
  end.

(** [s[a:b]] for [0 <= a <= b] *)
Definition slice (a b : nat) (s : string) : string := take (b - a) (drop a s).

(** [c.isspace()] on the code points below 256: TAB, LF, VT, FF, CR, the
    four separators FS, GS, RS and US, the space, NEL and NBSP. *)
Definition isspace (c : ascii) : bool :=
  let n := N_of_ascii c in
  ((9 <=? n) && (n <=? 13) || (28 <=? n) && (n <=? 32)
   || (n =? 133) || (n =? 160))%N.

Definition is_empty (s : string) : bool :=
  match s with EmptyString => true | String _ _ => false end.

(** [s.lstrip()] *)
Fixpoint lstrip (s : string) : string :=
  match s with
  | EmptyString => EmptyString
  | String c s' => if isspace c then lstrip s' else s
  end.

(** [s.rstrip()] *)
Fixpoint rstrip (s : string) : string :=
  match s with
  | EmptyString => EmptyString
  | String c s' =>
      let r := rstrip s' in
      if isspace c && is_empty r then EmptyString else String c r
  end.

(** [s.strip()] *)
Definition strip (s : string) : string := lstrip (rstrip s).

(** Every character of [s] is white space (true of the empty string). *)
Fixpoint blank (s : string) : bool :=
  match s with
  | EmptyString => true
  | String c s' => isspace c && blank s'
  end.

End Str.

(** ** Identifiers: [uuid.uuid4()] and [str(uuid)] *)

Module UUID.

(** [uuid.UUID(bytes=os.urandom(16), version=4).int], where [rnd] is the
    integer read from the sixteen random bytes: the variant bits are set
    to RFC 4122 and the version nibble to 4. *)
Definition uuid4 (rnd : Z) : Z :=
  let i := Z.land rnd (Z.lnot (Z.shiftl 0xc000 48)) in
  let i := Z.lor i (Z.shiftl 0x8000 48) in
  let i := Z.land i (Z.lnot (Z.shiftl 0xf000 64)) in
  Z.lor i (Z.shiftl 4 76).

Definition hex_digit (d : Z) : ascii :=
  if d <? 10 then ascii_of_N (Z.to_N (48 + d)) else ascii_of_N (Z.to_N (87 + d)).

(** The [n] low hexadecimal digits of [v], most significant first, put in
    front of [acc]. *)
Fixpoint hex_digits (n : nat) (v : Z) (acc : string) : string :=
  match n with
  | O => acc
  | S n' => hex_digits n' (v / 16) (String (hex_digit (v mod 16)) acc)
  end.

(** ['%032x' % i] for [0 <= i < 2^128] *)
Definition hex32 (i : Z) : string := hex_digits 32 i EmptyString.

(** [str(u)]: the 32 digits in groups of 8-4-4-4-12. *)
Definition str (i : Z) : string :=
  let h := hex32 i in
  Str.take 8 h +:+ "-" +:+ Str.slice 8 12 h +:+ "-" +:+ Str.slice 12 16 h
    +:+ "-" +:+ Str.slice 16 20 h +:+ "-" +:+ Str.drop 20 h.

End UUID.



(** ** Python values, exceptions and date-times *)

(** The values [json.loads] can return. A [dict] keeps its items in
    insertion order, as Python's does; a [float] is kept as its literal. *)
Inductive pyval : Type :=
  | PNone
  | PBool (b : bool)
  | PInt (z : Z)
  | PFloat (lit : string)
  | PStr (s : string)
  | PList (items : list pyval)
  | PDict (items : list (string * pyval)).

(** [d[k]] on the items of a dict *)
Fixpoint dict_lookup (k : string) (items : list (string * pyval)) : option pyval :=
  match items with
  | [] => None
  | (k', v) :: rest => if String.eqb k k' then Some v else dict_lookup k rest
  end.

(** A float literal is zero when its mantissa, the part before any
    exponent, holds no digit but 0. *)
Fixpoint zero_literal (lit : string) : bool :=
  match lit with
  | EmptyString => true
  | String c rest =>
      if Ascii.eqb c "e" || Ascii.eqb c "E" then true
      else if Ascii.eqb c "0" || Ascii.eqb c "." || Ascii.eqb c "-" || Ascii.eqb c "+"
           then zero_literal rest
           else false
  end.

(** [bool(v)] *)
Definition truthy (v : pyval) : bool :=
  match v with
  | PNone => false
  | PBool b => b
  | PInt z => negb (z =? 0)
  | PFloat lit => negb (zero_literal lit)
  | PStr s => negb (Str.is_empty s)
  | PList l => match l with [] => false | _ => true end
  | PDict d => match d with [] => false | _ => true end
  end.

(** The exception classes the program can meet. [NotFound] is
    [google.cloud.exceptions.NotFound]; [Forbidden], [TooManyRequests],
    [ServiceUnavailable] and [TransportError] stand for the auth, quota and
    network failures of a storage request. *)
Inductive exc_class : Type :=
  | NotFound | Forbidden | TooManyRequests | ServiceUnavailable | TransportError
  | JSONDecodeError | KeyError | TypeError | ValueError | OverflowError.

Global Instance exc_class_eq_dec : EqDecision exc_class.
Proof. solve_decision. Defined.

(** An exception: its class and [str(e)]. *)
Record exception : Type := Exc { exc_cls : exc_class; exc_str : string }.

(** [isinstance(e, NotFound)] *)
Definition is_NotFound (e : exception) : bool := bool_decide (exc_cls e = NotFound).

(** A [datetime]: microseconds since 0001-01-01T00:00:00 on its own wall
    clock, and its UTC offset in microseconds when it is time-zone aware. *)
Record datetime : Type := DateTime { micros : Z; utcoffset : option Z }.

(** What [datetime.now()] returns when the local clock reads [t]: naive. *)
Definition naive (t : Z) : datetime := DateTime t None.

Definition micros_per_day : Z := 86400 * 1000000.

(** The date-time [n] days after [dt]. This is the sum alone: the range
    check that [dt + timedelta(days=n)] makes on it is [add_days_checked]
    below. *)
Definition add_days (dt : datetime) (n : Z) : datetime :=
  DateTime (micros dt + n * micros_per_day) (utcoffset dt).

(** [a > b] on date-times: naive ones compare on the wall clock, aware ones
    as instants, and comparing a naive with an aware one raises. *)
Definition datetime_gt (a b : datetime) : exception + bool :=
  match utcoffset a, utcoffset b with
  | None, None => inr (micros b <? micros a)
  | Some oa, Some ob => inr (micros b - ob <? micros a - oa)
  | _, _ => inl (Exc TypeError "can't compare offset-naive and offset-aware datetimes")
  end.

(** [v[k]] for a string key [k]: only a dict can be indexed by a string. *)
Definition getitem (v : pyval) (k : string) : exception + pyval :=
  match v with
  | PDict d =>
      match dict_lookup k d with
      | Some x => inr x
      | None => inl (Exc KeyError ("'" +:+ k +:+ "'"))
      end
  | PList _ => inl (Exc TypeError "list indices must be integers or slices, not str")
  | PStr _ => inl (Exc TypeError "string indices must be integers, not 'str'")
  | PNone => inl (Exc TypeError "'NoneType' object is not subscriptable")
  | PBool _ => inl (Exc TypeError "'bool' object is not subscriptable")
  | PInt _ => inl (Exc TypeError "'int' object is not subscriptable")
  | PFloat _ => inl (Exc TypeError "'float' object is not subscriptable")
  end.

(** The codecs of the Python runtime the program calls. *)
Class PyLib : Type := {
  (** [json.dumps(v)] *)
  json_dumps : pyval -> string;
  (** [json.loads(s)]: the value, or the [JSONDecodeError] raised *)
  json_loads : string -> exception + pyval;
  (** [dt.isoformat()] *)
  isoformat : datetime -> string;
  (** [datetime.fromisoformat(s)] on a [str]: the date-time, or the
      [ValueError] raised *)
  parse_isoformat : string -> exception + datetime
}.

(** [datetime.fromisoformat(v)] on any value. *)
Definition fromisoformat `{PyLib} (v : pyval) : exception + datetime :=
  match v with
  | PStr s => parse_isoformat s
  | _ => inl (Exc TypeError "fromisoformat: argument must be str")
  end.

(** ** The world: the bucket, its failures, and standard output *)

Definition BUCKET_NAME : string := "paste-it".

(** A stored object: its text and its content type. *)
Record gcs_object : Type := GcsObject { content : string; content_type : string }.

(** A request sent to the storage service. *)
Inductive gcs_request : Type :=
  | Upload (blob_name : string) (data : string)
  | Download (blob_name : string).

(** [faults] scripts the storage service: its n-th entry is the exception
    the n-th request from now on fails with, or [None] if the service
    answers; past the end of the script it answers. [requests] is the
    history of the requests sent, oldest first; [stdout] the lines printed. *)
Record world : Type := World {
  bucket : gmap string gcs_object;
  faults : list (option exception);
  requests : list gcs_request;
  stdout : list string
}.

Definition next_fault (w : world) : option exception :=
  match faults w with
  | f :: _ => f
  | [] => None
  end.

(** Sending a request consumes one entry of the script and is recorded. *)
Definition sent (rq : gcs_request) (w : world) : world :=
  World (bucket w) (tail (faults w)) (requests w ++ [rq]) (stdout w).

Definition store (name : string) (o : gcs_object) (w : world) : world :=
  World (<[name := o]> (bucket w)) (faults w) (requests w) (stdout w).

(** ** Computations that may raise and that change the world *)

Definition Py (A : Type) : Type := world -> (exception + A) * world.

Definition ret {A} (a : A) : Py A := fun w => (inr a, w).

Definition bind {A B} (m : Py A) (k : A -> Py B) : Py B :=
  fun w =>
    match m w with
    | (inr a, w') => k a w'
    | (inl e, w') => (inl e, w')
    end.

(** A pure step that may raise. *)
Definition lift {A} (r : exception + A) : Py A := fun w => (r, w).

(** [try: body except Exception as e: handler(e)] *)
Definition try_except {A} (body : Py A) (handler : exception -> Py A) : Py A :=
  fun w =>
    match body w with
    | (inr a, w') => (inr a, w')
    | (inl e, w') => handler e w'
    end.

Notation "'let*' x ':=' m 'in' k" := (bind m (fun x => k))
  (at level 10, x name, m at level 100, k at level 200).

(** [print(line)] *)
Definition print (line : string) : Py unit :=
  fun w => (inr tt, World (bucket w) (faults w) (requests w) (stdout w ++ [line])).

(** [bucket.blob(name).upload_from_string(data, content_type)]: when the
    service answers the object is written, replacing any object of that
    name; when it fails nothing is written. *)
Definition upload_from_string (name data ctype : string) : Py unit :=
  fun w =>
    let w' := sent (Upload name data) w in
    match next_fault w with
    | Some e => (inl e, w')
    | None => (inr tt, store name (GcsObject data ctype) w')
    end.

(** [bucket.blob(name).download_as_text()]: the text of the object, or
    [NotFound] when the bucket holds no object of that name. *)
Definition download_as_text (name : string) : Py string :=
  fun w =>
    let w' := sent (Download name) w in
    match next_fault w with
    | Some e => (inl e, w')
    | None =>
        match bucket w !! name with
        | Some o => (inr (content o), w')
        | None => (inl (Exc NotFound ("No such object: " +:+ BUCKET_NAME +:+ "/" +:+ name)), w')
        end
    end.

(** ** The program *)

Section Program.

Context `{PyLib}.

(** [save_to_gcs(paste_id, data)]: the record goes to the blob
    [f"{paste_id}.json"] as JSON text. An exception of the upload leaves
    the function. *)
Definition save_to_gcs (paste_id : string) (data : pyval) : Py unit :=
  upload_from_string (paste_id +:+ ".json") (json_dumps data) "application/json".

(** The [try] block of [get_from_gcs]. [now] is what [datetime.now()]
    reads; it is only looked at once the expiry has been parsed. *)
Definition get_from_gcs_try (paste_id : string) (now : Z) : Py (option pyval) :=
  let* data_str := download_as_text (paste_id +:+ ".json") in
  let* data := lift (json_loads data_str) in
  let* field := lift (getitem data "expires_at") in
  let* expires_at := lift (fromisoformat field) in
  let* expired := lift (datetime_gt (naive now) expires_at) in
  if expired : bool then
    let* _ := print ("Paste " +:+ paste_id +:+ " expired.") in
    ret None
  else ret (Some data).

(** The [except NotFound] and [except Exception as e] clauses. *)
Definition get_from_gcs_except (e : exception) : Py (option pyval) :=
  if is_NotFound e then ret None
  else
    let* _ := print ("Error reading GCS: " +:+ exc_str e) in
    ret None.

(** The call [get_from_gcs(paste_id)] as a computation: the [try] block
    under its two [except] clauses. It returns the record or [None], or
    lets an exception out, should an [except] clause raise one. *)
Definition get_from_gcs_call (paste_id : string) (now : Z) : Py (option pyval) :=
  try_except (get_from_gcs_try paste_id now) get_from_gcs_except.

(** [get_from_gcs(paste_id)]: the record, or [None], that the call returns.
    No exception leaves the call ([get_from_gcs_returns] below), so the
    last branch here is never taken. *)
Definition get_from_gcs (paste_id : string) (now : Z) (w : world)
  : option pyval * world :=
  match try_except (get_from_gcs_try paste_id now) get_from_gcs_except w with
  | (inr r, w') => (r, w')
  | (inl _, w') => (None, w')
  end.

(** What a handler asks of the user interface. *)
Inductive notify_type : Type := Warning | Negative.

Inductive ui_action : Type :=
  | Notify (message : string) (type : notify_type)
  | NavigateTo (url : string).

(** The record [handle_submit] builds. *)
Definition payload (pid code lang expiry : string) : pyval :=
  PDict [("id", PStr pid); ("code", PStr code); ("lang", PStr lang);
         ("expires_at", PStr expiry)].

(** [str(uuid.uuid4())[:8]] *)
Definition fresh_pid (rnd : Z) : string := Str.take 8 (UUID.str (UUID.uuid4 rnd)).

(** [handle_submit()] of the page of client [client_id].
    [active_editors] maps a client to the text of its editor, [lang] is
    [lang_select.value], [rnd] the random bytes of [uuid.uuid4()] and [now]
    the reading of [datetime.now()]. *)
Definition handle_submit (active_editors : gmap string string)
    (client_id lang : string) (rnd now : Z) (w : world) : ui_action * world :=
  match active_editors !! client_id with
  | None => (Notify "Snippet is empty!" Warning, w)
  | Some value =>
      if Str.is_empty (Str.strip value) then (Notify "Snippet is empty!" Warning, w)
      else
        let pid := fresh_pid rnd in
        let expiry := isoformat (add_days (naive now) 30) in
        let data := payload pid value lang expiry in
        match save_to_gcs pid data w with
        | (inr _, w') => (NavigateTo ("/v/" +:+ pid), w')
        | (inl e, w') => (Notify ("Upload failed: " +:+ exc_str e) Negative, w')
        end
  end.

(** [datetime.max], 9999-12-31T23:59:59.999999, in microseconds. *)
Definition datetime_max : Z := 3652059 * micros_per_day - 1.

(** [dt + timedelta(days=n)]: a sum before the year 1 or past the year
    9999 raises. *)
Definition add_days_checked (dt : datetime) (n : Z) : exception + datetime :=
  let r := add_days dt n in
  if (0 <=? micros r) && (micros r <=? datetime_max) then inr r
  else inl (Exc OverflowError "date value out of range").

(** The call [handle_submit()] as a computation. The expiry is computed
    before the [try] block, so its [OverflowError] leaves the handler;
    whatever the upload raises is caught. [handle_submit] above is this
    call where the expiry is in range ([submit_call_in_range] below). *)
Definition handle_submit_call (active_editors : gmap string string)
    (client_id lang : string) (rnd now : Z) : Py ui_action :=
  match active_editors !! client_id with
  | None => ret (Notify "Snippet is empty!" Warning)
  | Some value =>
      if Str.is_empty (Str.strip value) then ret (Notify "Snippet is empty!" Warning)
      else
        let pid := fresh_pid rnd in
        let* expires := lift (add_days_checked (naive now) 30) in
        let expiry := isoformat expires in
        let data := payload pid value lang expiry in
        try_except
          (let* _ := save_to_gcs pid data in
           ret (NavigateTo ("/v/" +:+ pid)))
          (fun e => ret (Notify ("Upload failed: " +:+ exc_str e) Negative))
  end.

(** The two branches of the page [/v/{paste_id}]: [if data:], where the
    card of the record is built, and [else:], the card "Snippet Expired or
    Not Found". [PasteCard data] says that the first branch is entered with
    [data]; what the branch computes is [view_card] below. *)
Inductive page : Type :=
  | PasteCard (data : pyval)
  | ExpiredOrNotFound.

(** [view_paste(paste_id)] *)
Definition view_paste (paste_id : string) (now : Z) (w : world) : page * world :=
  let '(data, w') := get_from_gcs paste_id now w in
  match data with
  | Some d => if truthy d then (PasteCard d, w') else (ExpiredOrNotFound, w')
  | None => (ExpiredOrNotFound, w')
  end.

End Program.

(** ** A reference runtime

    An executable instance of [PyLib], used to run the program on concrete
    worlds. [json] covers documents whose strings stay below code point 256;
    [fromisoformat] covers the texts [isoformat] writes. The theorems below
    hold for every instance, not only for this one. *)

Module PyRef.

Definition quote : ascii := ascii_of_N 34.
Definition backslash : ascii := ascii_of_N 92.

(** *** [json.dumps] *)

(** One character of a JSON string, as [ensure_ascii=True] writes it. *)
Definition escape_char (c : ascii) : string :=
  let n := N_of_ascii c in
  if (n =? 34)%N then String backslash (String quote EmptyString)
  else if (n =? 92)%N then String backslash (String backslash EmptyString)
  else if (n =? 8)%N then String backslash "b"
  else if (n =? 12)%N then String backslash "f"
  else if (n =? 10)%N then String backslash "n"
  else if (n =? 13)%N then String backslash "r"
  else if (n =? 9)%N then String backslash "t"
  else if ((32 <=? n) && (n <=? 126))%N then String c EmptyString
  else String backslash ("u" +:+ UUID.hex_digits 4 (Z.of_N n) EmptyString).

Fixpoint escape (s : string) : string :=
  match s with
  | EmptyString => EmptyString
  | String c s' => escape_char c +:+ escape s'
  end.

Definition dump_str (s : string) : string :=
  String quote (escape s +:+ String quote EmptyString).

Fixpoint dec_nat (fuel : nat) (v : Z) (acc : string) : string :=
  match fuel with
  | O => acc
  | S fuel' =>
      let acc' := String (UUID.hex_digit (v mod 10)) acc in
      if v <? 10 then acc' else dec_nat fuel' (v / 10) acc'
  end.

(** [str(z)] for an [int] *)
Definition dump_int (z : Z) : string :=
  if z <? 0 then "-" +:+ dec_nat (Z.to_nat (Z.log2 (- z)) + 1) (- z) EmptyString
  else dec_nat (Z.to_nat (Z.log2 z) + 1) z EmptyString.

Fixpoint join (sep : string) (parts : list string) : string :=
  match parts with
  | [] => EmptyString
  | [p] => p
  | p :: rest => p +:+ sep +:+ join sep rest
  end.

Fixpoint dumps (v : pyval) : string :=
  match v with
  | PNone => "null"
  | PBool true => "true"
  | PBool false => "false"
  | PInt z => dump_int z
  | PFloat lit => lit
  | PStr s => dump_str s
  | PList l => "[" +:+ join ", " (map dumps l) +:+ "]"
  | PDict d =>
      "{" +:+ join ", " (map (fun kv => dump_str (fst kv) +:+ ": " +:+ dumps (snd kv)) d)
        +:+ "}"
  end.

(** *** [json.loads] *)

Definition is_ws (c : ascii) : bool :=
  let n := N_of_ascii c in ((n =? 32) || (n =? 9) || (n =? 10) || (n =? 13))%N.

Fixpoint skip_ws (s : string) : string :=
  match s with
  | String c s' => if is_ws c then skip_ws s' else s
  | EmptyString => s
  end.

Definition hex_val (c : ascii) : option Z :=
  let n := Z.of_N (N_of_ascii c) in
  if (48 <=? n) && (n <=? 57) then Some (n - 48)
  else if (97 <=? n) && (n <=? 102) then Some (n - 87)
  else if (65 <=? n) && (n <=? 70) then Some (n - 55)
  else None.

Definition digit_val (c : ascii) : option Z :=
  let n := Z.of_N (N_of_ascii c) in
  if (48 <=? n) && (n <=? 57) then Some (n - 48) else None.

(** The character a backslash followed by [e] stands for (all but [\u]). *)
Definition unescape (e : ascii) : option ascii :=
  let n := N_of_ascii e in
  if (n =? 34)%N then Some quote
  else if (n =? 92)%N then Some backslash
  else if (n =? 47)%N then Some e
  else if (n =? 98)%N then Some (ascii_of_N 8)
  else if (n =? 102)%N then Some (ascii_of_N 12)
  else if (n =? 110)%N then Some (ascii_of_N 10)
  else if (n =? 114)%N then Some (ascii_of_N 13)
  else if (n =? 116)%N then Some (ascii_of_N 9)
  else None.

(** The rest of a string literal, after its opening quote: the string and
    what follows the closing quote. *)
Fixpoint load_chars (s : string) : option (string * string) :=
  match s with
  | EmptyString => None
  | String c s' =>
      if Ascii.eqb c quote then Some (EmptyString, s')
      else if Ascii.eqb c backslash then
        match s' with
        | String e s2 =>
            if Ascii.eqb e "u" then
              match s2 with
              | String h1 (String h2 (String h3 (String h4 s3))) =>
                  match hex_val h1, hex_val h2, hex_val h3, hex_val h4 with
                  | Some 0, Some 0, Some a, Some b =>
                      match load_chars s3 with
                      | Some (t, r) => Some (String (ascii_of_N (Z.to_N (16 * a + b))) t, r)
                      | None => None
                      end
                  | _, _, _, _ => None
                  end
              | _ => None
              end
            else
              match unescape e, load_chars s2 with
              | Some x, Some (t, r) => Some (String x t, r)
              | _, _ => None
              end
        | EmptyString => None
        end
      else if (N_of_ascii c <? 32)%N then None
      else
        match load_chars s' with
        | Some (t, r) => Some (String c t, r)
        | None => None
        end
  end.

(** A run of digits: its value, how many there were, and the rest. *)
Fixpoint load_digits (s : string) (acc : Z) (count : nat) : Z * nat * string :=
  match s with
  | String c s' =>
      match digit_val c with
      | Some d => load_digits s' (10 * acc + d) (S count)
      | None => (acc, count, s)
      end
  | EmptyString => (acc, count, s)
  end.

(** An integer literal. A fraction or an exponent is not read. *)
Definition load_int (s : string) : option (pyval * string) :=
  let '(neg, body) :=
    match s with
    | String c s' => if Ascii.eqb c "-" then (true, s') else (false, s)
    | EmptyString => (false, s)
    end in
  match load_digits body 0 O with
  | (_, O, _) => None
  | (v, _, rest) =>
      match rest with
      | String c _ =>
          if Ascii.eqb c "." || Ascii.eqb c "e" || Ascii.eqb c "E" then None
          else Some (PInt (if neg then - v else v), rest)
      | EmptyString => Some (PInt (if neg then - v else v), rest)
      end
  end.

(** [pre] in front of a text: what follows it. *)
Fixpoint expect (pre s : string) : option string :=
  match pre, s with
  | EmptyString, _ => Some s
  | String a pre', String b s' => if Ascii.eqb a b then expect pre' s' else None
  | String _ _, EmptyString => None
  end.

(** [d[k] = v]: an existing key keeps its place. *)
Fixpoint dict_set (k : string) (v : pyval) (d : list (string * pyval))
  : list (string * pyval) :=
  match d with
  | [] => [(k, v)]
  | (k', v') :: rest =>
      if String.eqb k k' then (k, v) :: rest else (k', v') :: dict_set k v rest
  end.

(** A JSON value at the head of [s], and the text after it. [fuel] bounds
    the number of values, items and members read. *)
Fixpoint load_value (fuel : nat) (s : string) {struct fuel} : option (pyval * string) :=
  match fuel with
  | O => None
  | S fuel' =>
      match skip_ws s with
      | EmptyString => None
      | String c r as s0 =>
          if Ascii.eqb c "{" then
            match skip_ws r with
            | String c' r' as r0 =>
                if Ascii.eqb c' "}" then Some (PDict [], r') else load_members fuel' r0 []
            | EmptyString => None
            end
          else if Ascii.eqb c "[" then
            match skip_ws r with
            | String c' r' as r0 =>
                if Ascii.eqb c' "]" then Some (PList [], r') else load_items fuel' r0 []
            | EmptyString => None
            end
          else if Ascii.eqb c quote then
            match load_chars r with
            | Some (t, r') => Some (PStr t, r')
            | None => None
            end
          else if Ascii.eqb c "n" then option_map (pair PNone) (expect "null" s0)
          else if Ascii.eqb c "t" then option_map (pair (PBool true)) (expect "true" s0)
          else if Ascii.eqb c "f" then option_map (pair (PBool false)) (expect "false" s0)
          else load_int s0
      end
  end
with load_items (fuel : nat) (s : string) (acc : list pyval) {struct fuel}
  : option (pyval * string) :=
  match fuel with
  | O => None
  | S fuel' =>
      match load_value fuel' s with
      | Some (v, r) =>
          match skip_ws r with
          | String c r' =>
              if Ascii.eqb c "," then load_items fuel' r' (acc ++ [v])
              else if Ascii.eqb c "]" then Some (PList (acc ++ [v]), r')
              else None
          | EmptyString => None
          end
      | None => None
      end
  end
with load_members (fuel : nat) (s : string) (acc : list (string * pyval)) {struct fuel}
  : option (pyval * string) :=
  match fuel with
  | O => None
  | S fuel' =>
      match skip_ws s with
      | String q r =>
          if Ascii.eqb q quote then
            match load_chars r with
            | Some (k, r1) =>
                match skip_ws r1 with
                | String c r2 =>
                    if Ascii.eqb c ":" then
                      match load_value fuel' r2 with
                      | Some (v, r3) =>
                          match skip_ws r3 with
                          | String c' r4 =>
                              if Ascii.eqb c' "," then load_members fuel' r4 (dict_set k v acc)
                              else if Ascii.eqb c' "}" then Some (PDict (dict_set k v acc), r4)
                              else None
                          | EmptyString => None
                          end
                      | None => None
                      end
                    else None
                | EmptyString => None
                end
            | None => None
            end
          else None
      | EmptyString => None
      end
  end.

Definition loads (s : string) : exception + pyval :=
  match load_value (2 * String.length s + 2) s with
  | Some (v, rest) =>
      match skip_ws rest with
      | EmptyString => inr v
      | String _ _ => inl (Exc JSONDecodeError "Extra data")
      end
  | None => inl (Exc JSONDecodeError "Expecting value")
  end.

(** Apostrophes turned into double quotes, to write JSON text down. *)
Fixpoint json_text (s : string) : string :=
  match s with
  | EmptyString => EmptyString
  | String c s' => String (if Ascii.eqb c "'" then quote else c) (json_text s')
  end.

(** *** [datetime.isoformat] and [datetime.fromisoformat] *)

Definition is_leap (y : Z) : bool :=
  (y mod 4 =? 0) && (negb (y mod 100 =? 0) || (y mod 400 =? 0)).

Definition days_in_month (y m : Z) : Z :=
  if m =? 2 then (if is_leap y then 29 else 28)
  else if (m =? 4) || (m =? 6) || (m =? 9) || (m =? 11) then 30
  else 31.

(** Days of the year [y] before the first of month [m]. *)
Definition days_before_month (y m : Z) : Z :=
  nth (Z.to_nat m) [0; 0; 31; 59; 90; 120; 151; 181; 212; 243; 273; 304; 334] 0
  + (if (2 <? m) && is_leap y then 1 else 0).

(** Days before the first of January of year [y]. *)
Definition days_before_year (y : Z) : Z :=
  let p := y - 1 in p * 365 + p / 4 - p / 100 + p / 400.

(** The ordinal of a date; 0001-01-01 is day 1. *)
Definition ymd2ord (y m d : Z) : Z :=
  days_before_year y + days_before_month y m + d.

(** The date of an ordinal. *)
Definition ord2ymd (ord : Z) : Z * Z * Z :=
  let n := ord - 1 in
  let n400 := n / 146097 in
  let n := n mod 146097 in
  let n100 := n / 36524 in
  let n := n mod 36524 in
  let n4 := n / 1461 in
  let n := n mod 1461 in
  let n1 := n / 365 in
  let n := n mod 365 in
  let year := n400 * 400 + 1 + n100 * 100 + n4 * 4 + n1 in
  if (n1 =? 4) || (n100 =? 4) then (year - 1, 12, 31)
  else
    let month := Z.shiftr (n + 50) 5 in
    let preceding := days_before_month year month in
    if n <? preceding
    then (year, month - 1, n - (preceding - days_in_month year (month - 1)) + 1)
    else (year, month, n - preceding + 1).

(** [v] in [n] decimal digits, zero padded. *)
Fixpoint dec_digits (n : nat) (v : Z) (acc : string) : string :=
  match n with
  | O => acc
  | S n' => dec_digits n' (v / 10) (String (UUID.hex_digit (v mod 10)) acc)
  end.

Definition pad (n : nat) (v : Z) : string := dec_digits n v EmptyString.

Definition micros_per_second : Z := 1000000.
Definition micros_per_minute : Z := 60 * micros_per_second.
Definition micros_per_hour : Z := 60 * micros_per_minute.

Definition format_offset (off : Z) : string :=
  let a := Z.abs off in
  (if off <? 0 then "-" else "+")
    +:+ pad 2 (a / micros_per_hour) +:+ ":" +:+ pad 2 (a mod micros_per_hour / micros_per_minute).

Definition iso_format (dt : datetime) : string :=
  let t := micros dt in
  let '(y, m, d) := ord2ymd (t / micros_per_day + 1) in
  let r := t mod micros_per_day in
  let us := r mod micros_per_second in
  pad 4 y +:+ "-" +:+ pad 2 m +:+ "-" +:+ pad 2 d +:+ "T"
    +:+ pad 2 (r / micros_per_hour) +:+ ":"
    +:+ pad 2 (r mod micros_per_hour / micros_per_minute) +:+ ":"
    +:+ pad 2 (r mod micros_per_minute / micros_per_second)
    +:+ (if us =? 0 then EmptyString else "." +:+ pad 6 us)
    +:+ match utcoffset dt with
        | Some off => format_offset off
        | None => EmptyString
        end.

(** Exactly [n] digits at the head of [s]: their value and the rest. *)
Fixpoint take_digits (n : nat) (s : string) (acc : Z) : option (Z * string) :=
  match n with
  | O => Some (acc, s)
  | S n' =>
      match s with
      | String c s' =>
          match digit_val c with
          | Some d => take_digits n' s' (10 * acc + d)
          | None => None
          end
      | EmptyString => None
      end
  end.

Definition take_char (c : ascii) (s : string) : option string :=
  match s with
  | String c' s' => if Ascii.eqb c c' then Some s' else None
  | EmptyString => None
  end.

(** [+HH:MM] or [-HH:MM] at the end of a text, or nothing. *)
Definition parse_offset (s : string) : option (option Z) :=
  match s with
  | EmptyString => Some None
  | String sg s1 =>
      if Ascii.eqb sg "+" || Ascii.eqb sg "-" then
        '(hh, s2) ← take_digits 2 s1 0;
        s3 ← take_char ":" s2;
        '(mm, s4) ← take_digits 2 s3 0;
        if Str.is_empty s4 && (hh <? 24) && (mm <? 60) then
          let off := hh * micros_per_hour + mm * micros_per_minute in
          Some (Some (if Ascii.eqb sg "-" then - off else off))
        else None
      else None
  end.

(** [YYYY-MM-DD], or [YYYY-MM-DD] a separator and [HH:MM:SS], then
    optionally [.ffffff], then optionally an offset. *)
Definition iso_parse_opt (s : string) : option datetime :=
  '(y, s1) ← take_digits 4 s 0;
  s2 ← take_char "-" s1;
  '(m, s3) ← take_digits 2 s2 0;
  s4 ← take_char "-" s3;
  '(d, s5) ← take_digits 2 s4 0;
  if (1 <=? y) && (1 <=? m) && (m <=? 12) && (1 <=? d) && (d <=? days_in_month y m) then
    let day := (ymd2ord y m d - 1) * micros_per_day in
    match s5 with
    | EmptyString => Some (naive day)
    | String _ s6 =>
        '(hh, s7) ← take_digits 2 s6 0;
        s8 ← take_char ":" s7;
        '(mi, s9) ← take_digits 2 s8 0;
        s10 ← take_char ":" s9;
        '(ss, s11) ← take_digits 2 s10 0;
        '(us, s12) ← match take_char "." s11 with
                     | Some s' => take_digits 6 s' 0
                     | None => Some (0, s11)
                     end;
        off ← parse_offset s12;
        if (hh <? 24) && (mi <? 60) && (ss <? 60) then
          Some (DateTime (day + hh * micros_per_hour + mi * micros_per_minute
                          + ss * micros_per_second + us) off)
        else None
    end
  else None.

Definition iso_parse (s : string) : exception + datetime :=
  match iso_parse_opt s with
  | Some dt => inr dt
  | None => inl (Exc ValueError ("Invalid isoformat string: '" +:+ s +:+ "'"))
  end.

Definition lib : PyLib :=
  {| json_dumps := dumps; json_loads := loads;
     isoformat := iso_format; parse_isoformat := iso_parse |}.

(** The reading of the clock at [y-m-d hh:mi:ss]. *)
Definition clock (y m d hh mi ss : Z) : Z :=
  (ymd2ord y m d - 1) * micros_per_day + hh * micros_per_hour
  + mi * micros_per_minute + ss * micros_per_second.

End PyRef.



(** ** Vocabulary of the properties *)

(** The world after [line] has been printed. *)
Definition printed (line : string) (w : world) : world :=
  World (bucket w) (faults w) (requests w) (stdout w ++ [line]).

(** Where the [except] clauses of [get_from_gcs] leave the world. *)
Definition after_except (e : exception) (w : world) : world :=
  if is_NotFound e then w else printed ("Error reading GCS: " +:+ exc_str e) w.

(** The name of the blob of a paste. *)
Definition blob_of (paste_id : string) : string := paste_id +:+ ".json".

(** What the [try] block of [get_from_gcs] makes of a downloaded text
    before it looks at the clock: the decoded record and its expiry. *)
Definition decode_record `{PyLib} (text : string) : exception + (pyval * datetime) :=
  match json_loads text with
  | inl e => inl e
  | inr data =>
      match getitem data "expires_at" with
      | inl e => inl e
      | inr field =>
          match fromisoformat field with
          | inl e => inl e
          | inr expires_at => inr (data, expires_at)
          end
      end
  end.

(** The identifier a submit hands out: the one its link leads to. *)
Definition created_id (a : ui_action) : option string :=
  match a with
  | NavigateTo url => Some (Str.drop 3 url)
  | Notify _ _ => None
  end.

(** The worlds the service can be in, with the identifiers handed out so
    far: the bucket starts empty, the storage service may change its mind
    about the requests to come, and clients submit and view pastes. *)
Inductive reachable `{PyLib} : world -> list string -> Prop :=
  | reach_start fs :
      reachable (World ∅ fs [] []) []
  | reach_weather w ids fs :
      reachable w ids ->
      reachable (World (bucket w) fs (requests w) (stdout w)) ids
  | reach_submit w ids editors client lang rnd now :
      reachable w ids ->
      reachable (handle_submit editors client lang rnd now w).2
        (option_list (created_id (handle_submit editors client lang rnd now w).1) ++ ids)
  | reach_view w ids paste_id now :
      reachable w ids ->
      reachable (view_paste paste_id now w).2 ids.

(** The expiry rule with the instant of expiry itself counted as expired:
    a stored record whose expiry parses to [e] is refused from [e] on and
    served before. *)
Definition expiry_inclusive `{PyLib} (paste_id : string) (now : Z) (w : world) : Prop :=
  forall o data e,
    next_fault w = None ->
    bucket w !! blob_of paste_id = Some o ->
    decode_record (content o) = inr (data, naive e) ->
    (e <= now -> (get_from_gcs paste_id now w).1 = None)
    /\ (now < e -> (get_from_gcs paste_id now w).1 = Some data).

(** A failed read told apart from a missing object by what
    [get_from_gcs] returns. *)
Definition failure_distinct `{PyLib} (paste_id : string) (now : Z) (e : exception)
    (w_down w_absent : world) : Prop :=
  next_fault w_down = Some e ->
  is_NotFound e = false ->
  next_fault w_absent = None ->
  bucket w_absent !! blob_of paste_id = None ->
  (get_from_gcs paste_id now w_down).1 <> (get_from_gcs paste_id now w_absent).1.

(** ** Sample worlds *)

Module Sample.

Definition editors : gmap string string :=
  {[ "client-1" := "SELECT 1;"; "client-2" := "   " ]}.

Definition rnd : Z := 0x1b9d6bcdbbfd0b2d9b5dab8dfbbd4bed.

Definition noon : Z := PyRef.clock 2025 1 1 12 0 0.

Definition empty_world : world := World ∅ [] [] [].

(** The service refuses the next request and would accept the one after. *)
Definition outage : exception := Exc ServiceUnavailable "503 Service Unavailable".

Definition down_world : world := World ∅ [Some outage; None] [] [].

(** A record that expires on 2025-01-31 at noon. *)
Definition record : pyval :=
  payload "abc12345" "SELECT 1;" "sql" "2025-01-31T12:00:00".

Definition stocked_world : world :=
  World {[ "abc12345.json" := GcsObject (PyRef.dumps record) "application/json" ]} [] [] [].

(** Objects that do not decode: broken JSON, a record without its
    expiry, and an expiry that is no date. *)
Definition broken_world : world :=
  World {[ "bad1.json" := GcsObject "{not json" "application/json";
           "bad2.json" := GcsObject (PyRef.json_text "{'id': 'bad2', 'code': 'x'}") "application/json";
           "bad3.json" := GcsObject (PyRef.json_text "{'expires_at': 'tomorrow'}") "application/json" ]}
        [] [] [].

End Sample.

(** ** The rest of the pages

    The editor state of the page [/] and what the page [/v/{paste_id}]
    shows of a record. *)

(** [LANG_OPTIONS]: the language labels and their display names. *)
Definition LANG_OPTIONS : gmap string string :=
  {[ "sql" := "SQL"; "python" := "Python"; "yaml" := "Terraform / YAML";
     "javascript" := "JavaScript"; "text" := "Plain Text" ]}.

(** A [ui.codemirror] element: its text and its language. *)
Record codemirror : Type := CodeMirror { cm_value : string; cm_language : string }.

(** [refresh_editor()] of the page of client [client_id], with [lang] the
    value of the language select: the editor is made anew, with the text of
    the editor the client had, or the empty text. *)
Definition refresh_editor (active_editors : gmap string codemirror)
    (client_id lang : string) : gmap string codemirror :=
  let current_text :=
    match active_editors !! client_id with
    | Some editor => cm_value editor
    | None => EmptyString
    end in
  <[client_id := CodeMirror current_text lang]> active_editors.

(** What [index()] leaves in [active_editors]: the select starts on [sql]
    and [refresh_editor()] is called once. *)
Definition index (active_editors : gmap string codemirror) (client_id : string)
  : gmap string codemirror :=
  refresh_editor active_editors client_id "sql".

(** The texts [handle_submit] reads, [editor.value] for each client. *)
Definition texts (active_editors : gmap string codemirror) : gmap string string :=
  cm_value <$> active_editors.

(** [LANG_OPTIONS.get(lang, lang)] *)
Definition language_label (lang : string) : string :=
  default lang (LANG_OPTIONS !! lang).

(** [expires_at[:10]] *)
Definition valid_until (expires_at : string) : string := Str.take 10 expires_at.

Definition backslash : ascii := ascii_of_N 92.
Definition backtick : ascii := ascii_of_N 96.
Definition dollar : ascii := ascii_of_N 36.

(** [s.replace(old, new)] for an [old] of one character. *)
Fixpoint replace_char (old : ascii) (new : string) (s : string) : string :=
  match s with
  | EmptyString => EmptyString
  | String c s' =>
      if Ascii.eqb c old then new +:+ replace_char old new s'
      else String c (replace_char old new s')
  end.

(** [code.replace('`', '\\`').replace('$', '\\$')] of the Python source: a
    backslash goes in front of every backtick, then in front of every
    dollar. *)
Definition escaped_code (code : string) : string :=
  replace_char dollar (String backslash (String dollar EmptyString))
    (replace_char backtick (String backslash (String backtick EmptyString)) code).

(** The script of the button "Copy Code". *)
Definition copy_script (code : string) : string :=
  "navigator.clipboard.writeText(" +:+ String backtick (escaped_code code)
    +:+ String backtick ")".

(** What [view_paste] computes for the card of a record and hands to the
    user interface: the text of the language label, the local [expiry] put
    after "Valid until: ", the [code] and [language] arguments of
    [ui.code], and the script run by the button "Copy Code". How the
    toolkit renders them is not part of it. *)
Record card : Type := Card {
  card_label : string;
  card_valid_until : string;
  card_code : string;
  card_language : string;
  card_script : string
}.

Definition paste_card (code lang expires_at : string) : card :=
  Card (language_label lang) (valid_until expires_at) code lang (copy_script code).

(** [data.get(k, default)] on the items of a dict *)
Definition dict_get (k : string) (default : pyval) (items : list (string * pyval)) : pyval :=
  match dict_lookup k items with
  | Some v => v
  | None => default
  end.

(** What the branch [if data:] of [view_paste] computes from a record,
    with the defaults of its three [data.get]. It is given for records
    whose three fields are strings; for the other records, on which that
    branch may raise, nothing is said ([None]). *)
Definition view_card (data : pyval) : option card :=
  match data with
  | PDict items =>
      match dict_get "code" (PStr EmptyString) items,
            dict_get "lang" (PStr "text") items,
            dict_get "expires_at" (PStr EmptyString) items with
      | PStr code, PStr lang, PStr expires_at => Some (paste_card code lang expires_at)
      | _, _, _ => None
      end
  | _ => None
  end.

(** ** More vocabulary *)

(** The world with another script for the requests to come. *)
Definition forecast (fs : list (option exception)) (w : world) : world :=
  World (bucket w) fs (requests w) (stdout w).

(** [p] holds of every character of [s]. *)
Fixpoint all_chars (p : ascii -> bool) (s : string) : bool :=
  match s with
  | EmptyString => true
  | String c s' => p c && all_chars p s'
  end.

(** A digit or a letter from [a] to [f]. *)
Definition is_lower_hex (c : ascii) : bool :=
  let n := N_of_ascii c in
  ((48 <=? n) && (n <=? 57) || (97 <=? n) && (n <=? 102))%N.

(** In [s], read after the character [prev], every backtick and every
    dollar comes right after a backslash. *)
Fixpoint guarded (prev : ascii) (s : string) : bool :=
  match s with
  | EmptyString => true
  | String c s' =>
      (if Ascii.eqb c backtick || Ascii.eqb c dollar then Ascii.eqb prev backslash else true)
      && guarded c s'
  end.

(** A request is the upload of a blob. *)
Definition is_upload (rq : gcs_request) : bool :=
  match rq with
  | Upload _ _ => true
  | Download _ => false
  end.

(** ** More sample worlds *)

Module Sample2.

(** A record whose expiry carries a UTC offset. *)
Definition zoned_world : world :=
  World {[ "tz.json" :=
             GcsObject (PyRef.json_text "{'expires_at': '2099-01-01T00:00:00+02:00'}")
               "application/json" ]} [] [] [].

(** Another client, with another snippet, and a draw of the random bits
    that differs from [Sample.rnd] in its lowest bit only. *)
Definition other_editors : gmap string string := {[ "client-3" := "DROP TABLE t;" ]}.

Definition near_rnd : Z := Sample.rnd + 1.

(** A record with its expiry and nothing else. *)
Definition bare_world : world :=
  World {[ "bare.json" :=
             GcsObject (PyRef.json_text "{'expires_at': '2099-01-01T00:00:00'}")
               "application/json" ]} [] [] [].

(** A clock less than thirty days before the end of the year 9999. *)
Definition last_days : Z := PyRef.clock 9999 12 15 0 0 0.

(** A draw that differs from [Sample.rnd] in its highest bits. *)
Definition far_rnd : Z := 0xdeadbeef000000000000000000000000.

End Sample2.

(** * Properties *)

Example uuid_str_example :
  UUID.str (UUID.uuid4 0x1b9d6bcdbbfd0b2d9b5dab8dfbbd4bed)
  = "1b9d6bcd-bbfd-4b2d-9b5d-ab8dfbbd4bed".
Proof. vm_compute. reflexivity. Qed.

Example strip_example :
  Str.strip (String (ascii_of_N 9) "  SELECT 1; ") = "SELECT 1;"
  /\ Str.strip "   " = EmptyString.
Proof. vm_compute. split; reflexivity. Qed.

Example loads_dumps_example :
  PyRef.dumps (PDict [("id", PStr "1b9d6bcd"); ("n", PList [PInt (-12); PNone; PBool true])])
  = String "{" (String PyRef.quote ("id" +:+ String PyRef.quote (": " +:+
      String PyRef.quote ("1b9d6bcd" +:+ String PyRef.quote (", " +:+
      String PyRef.quote ("n" +:+ String PyRef.quote ": [-12, null, true]}"))))))
  /\ PyRef.loads (PyRef.dumps (PDict [("id", PStr "1b9d6bcd"); ("n", PList [PInt (-12); PNone; PBool true])]))
     = inr (PDict [("id", PStr "1b9d6bcd"); ("n", PList [PInt (-12); PNone; PBool true])])
  /\ PyRef.loads "{not json" = inl (Exc JSONDecodeError "Expecting value").
Proof. vm_compute. repeat split; reflexivity. Qed.

Example isoformat_example :
  PyRef.iso_format (naive (PyRef.clock 2025 1 31 12 0 0)) = "2025-01-31T12:00:00"
  /\ PyRef.iso_format (add_days (naive (PyRef.clock 2024 2 1 23 59 59 + 250)) 30)
     = "2024-03-02T23:59:59.000250"
  /\ PyRef.iso_parse "2024-03-02T23:59:59.000250"
     = inr (add_days (naive (PyRef.clock 2024 2 1 23 59 59 + 250)) 30)
  /\ PyRef.iso_parse "2025-01-31T12:00:00+02:00"
     = inr (DateTime (PyRef.clock 2025 1 31 12 0 0) (Some (2 * PyRef.micros_per_hour)))
  /\ PyRef.iso_parse "tomorrow" = inl (Exc ValueError "Invalid isoformat string: 'tomorrow'").
Proof. vm_compute. repeat split; reflexivity. Qed.

(** A submit on 2025-01-01 at noon, against an empty bucket. *)
Example submit_example :
  handle_submit (H:=PyRef.lib) Sample.editors "client-1" "sql" Sample.rnd Sample.noon
    Sample.empty_world
  = (NavigateTo "/v/1b9d6bcd",
     World {[ "1b9d6bcd.json" :=
                GcsObject
                  (PyRef.json_text
                     "{'id': '1b9d6bcd', 'code': 'SELECT 1;', 'lang': 'sql', 'expires_at': '2025-01-31T12:00:00'}")
                  "application/json" ]}
       []
       [Upload "1b9d6bcd.json"
          (PyRef.json_text
             "{'id': '1b9d6bcd', 'code': 'SELECT 1;', 'lang': 'sql', 'expires_at': '2025-01-31T12:00:00'}")]
       []).
Proof. vm_compute. reflexivity. Qed.

(** ** Strings and identifiers *)

Lemma rstrip_empty s : Str.is_empty (Str.rstrip s) = Str.blank s.
Proof.
  induction s as [|c s IH]; simpl; [reflexivity|].
  rewrite <- IH. destruct (Str.isspace c), (Str.is_empty (Str.rstrip s)); reflexivity.
Qed.

Lemma lstrip_empty s : Str.is_empty (Str.lstrip s) = Str.blank s.
Proof.
  induction s as [|c s IH]; simpl; [reflexivity|].
  destruct (Str.isspace c); simpl; [exact IH | reflexivity].
Qed.

Lemma rstrip_blank s : Str.blank (Str.rstrip s) = Str.blank s.
Proof.
  induction s as [|c s IH]; simpl; [reflexivity|].
  rewrite rstrip_empty.
  destruct (Str.isspace c) eqn:Hc, (Str.blank s) eqn:Hb; simpl;
    rewrite ?Hc, ?IH; reflexivity.
Qed.

(** [s.strip()] is empty exactly when [s] holds nothing but white space. *)
Lemma strip_empty s : Str.is_empty (Str.strip s) = Str.blank s.
Proof. unfold Str.strip. rewrite lstrip_empty. apply rstrip_blank. Qed.

Lemma append_cons c s t : String c s +:+ t = String c (s +:+ t).
Proof. reflexivity. Qed.

Lemma take_length n s : String.length (Str.take n s) = Nat.min n (String.length s).
Proof.
  revert s. induction n as [|n IH]; intros [|c s]; simpl; try reflexivity.
  rewrite IH. reflexivity.
Qed.

Lemma take_append n s t :
  (n <= String.length s)%nat -> Str.take n (s +:+ t) = Str.take n s.
Proof.
  revert s. induction n as [|n IH]; intros [|c s] Hn; simpl in *;
    try reflexivity; try lia.
  rewrite IH by lia. reflexivity.
Qed.

Lemma take_take n s : Str.take n (Str.take n s) = Str.take n s.
Proof.
  revert s. induction n as [|n IH]; intros [|c s]; simpl; try reflexivity.
  rewrite IH. reflexivity.
Qed.

Lemma hex_digits_length n v acc :
  String.length (UUID.hex_digits n v acc) = (n + String.length acc)%nat.
Proof.
  revert v acc. induction n as [|n IH]; intros v acc; simpl; [reflexivity|].
  rewrite IH. simpl. lia.
Qed.

Lemma hex32_length i : String.length (UUID.hex32 i) = 32%nat.
Proof. unfold UUID.hex32. rewrite hex_digits_length. reflexivity. Qed.

(** The identifier is the first group of the UUID's text. *)
Lemma fresh_pid_hex rnd : fresh_pid rnd = Str.take 8 (UUID.hex32 (UUID.uuid4 rnd)).
Proof.
  unfold fresh_pid, UUID.str.
  rewrite take_append.
  - apply take_take.
  - rewrite take_length, hex32_length. simpl. lia.
Qed.

Lemma fresh_pid_length rnd : Str.len (fresh_pid rnd) = 8%nat.
Proof.
  rewrite fresh_pid_hex. unfold Str.len. rewrite take_length, hex32_length.
  reflexivity.
Qed.

Lemma append_length s t : String.length (s +:+ t) = (String.length s + String.length t)%nat.
Proof. induction s as [|c s IH]; [reflexivity|]. rewrite append_cons. simpl. rewrite IH. reflexivity. Qed.

(** Distinct identifiers name distinct blobs. *)
Lemma blob_name_inj (suffix a b : string) : a +:+ suffix = b +:+ suffix -> a = b.
Proof.
  revert b. induction a as [|c a IH]; intros [|d b] Heq.
  - reflexivity.
  - exfalso. apply (f_equal String.length) in Heq.
    rewrite !append_length in Heq. simpl in Heq. lia.
  - exfalso. apply (f_equal String.length) in Heq.
    rewrite !append_length in Heq. simpl in Heq. lia.
  - rewrite !append_cons in Heq. injection Heq as -> Heq. f_equal. apply IH, Heq.
Qed.

(** ** The storage helpers, case by case *)

Section Facts.

Context `{PyLib}.

Lemma except_run e w : get_from_gcs_except e w = (inr None, after_except e w).
Proof.
  unfold get_from_gcs_except, after_except.
  destruct (is_NotFound e); reflexivity.
Qed.

Lemma save_ok pid data w :
  next_fault w = None ->
  save_to_gcs pid data w
  = (inr tt, store (blob_of pid) (GcsObject (json_dumps data) "application/json")
               (sent (Upload (blob_of pid) (json_dumps data)) w)).
Proof.
  intros Hf. unfold save_to_gcs, upload_from_string, blob_of. rewrite Hf. reflexivity.
Qed.

Lemma save_fails pid data w e :
  next_fault w = Some e ->
  save_to_gcs pid data w = (inl e, sent (Upload (blob_of pid) (json_dumps data)) w).
Proof.
  intros Hf. unfold save_to_gcs, upload_from_string, blob_of. rewrite Hf. reflexivity.
Qed.

Lemma get_fails pid now w e :
  next_fault w = Some e ->
  get_from_gcs pid now w = (None, after_except e (sent (Download (blob_of pid)) w)).
Proof.
  intros Hf.
  unfold get_from_gcs, try_except, get_from_gcs_try, bind, download_as_text.
  rewrite Hf, except_run. reflexivity.
Qed.

Lemma get_absent pid now w :
  next_fault w = None ->
  bucket w !! blob_of pid = None ->
  get_from_gcs pid now w = (None, sent (Download (blob_of pid)) w).
Proof.
  intros Hf Hb. unfold blob_of in Hb.
  unfold get_from_gcs, try_except, get_from_gcs_try, bind, download_as_text.
  rewrite Hf, Hb, except_run. reflexivity.
Qed.

Lemma get_undecodable pid now w o e :
  next_fault w = None ->
  bucket w !! blob_of pid = Some o ->
  decode_record (content o) = inl e ->
  get_from_gcs pid now w = (None, after_except e (sent (Download (blob_of pid)) w)).
Proof.
  intros Hf Hb Hd. unfold blob_of in Hb. unfold decode_record in Hd.
  unfold get_from_gcs, try_except, get_from_gcs_try, bind, download_as_text, lift.
  rewrite Hf, Hb.
  destruct (json_loads (content o)) as [e1|data]; simplify_eq/=.
  { rewrite except_run. reflexivity. }
  destruct (getitem data "expires_at") as [e2|field]; simplify_eq/=.
  { rewrite except_run. reflexivity. }
  destruct (fromisoformat field) as [e3|dt]; simplify_eq/=.
  rewrite except_run. reflexivity.
Qed.

Lemma get_decoded pid now w o data dt :
  next_fault w = None ->
  bucket w !! blob_of pid = Some o ->
  decode_record (content o) = inr (data, dt) ->
  get_from_gcs pid now w
  = match datetime_gt (naive now) dt with
    | inr true =>
        (None, printed ("Paste " +:+ pid +:+ " expired.") (sent (Download (blob_of pid)) w))
    | inr false => (Some data, sent (Download (blob_of pid)) w)
    | inl e => (None, after_except e (sent (Download (blob_of pid)) w))
    end.
Proof.
  intros Hf Hb Hd. unfold blob_of in Hb. unfold decode_record in Hd.
  unfold get_from_gcs, try_except, get_from_gcs_try, bind, download_as_text, lift.
  rewrite Hf, Hb.
  destruct (json_loads (content o)) as [e1|data']; simplify_eq/=.
  destruct (getitem data' "expires_at") as [e2|field]; simplify_eq/=.
  destruct (fromisoformat field) as [e3|dt']; simplify_eq/=.
  destruct (datetime_gt (naive now) dt) as [e4|[|]]; simpl.
  - rewrite except_run. reflexivity.
  - reflexivity.
  - reflexivity.
Qed.

(** Whatever happens, [get_from_gcs] sends one download and leaves the
    bucket and the script of the requests after it alone. *)
Lemma get_frame pid now w :
  bucket (get_from_gcs pid now w).2 = bucket w
  /\ requests (get_from_gcs pid now w).2 = requests w ++ [Download (blob_of pid)]
  /\ faults (get_from_gcs pid now w).2 = tail (faults w).
Proof.
  destruct (next_fault w) as [e|] eqn:Hf.
  { rewrite (get_fails _ _ _ _ Hf). unfold after_except.
    destruct (is_NotFound e); simpl; auto. }
  destruct (bucket w !! blob_of pid) as [o|] eqn:Hb.
  2:{ rewrite (get_absent _ _ _ Hf Hb). simpl; auto. }
  destruct (decode_record (content o)) as [e|[data dt]] eqn:Hd.
  { rewrite (get_undecodable _ _ _ _ _ Hf Hb Hd). unfold after_except.
    destruct (is_NotFound e); simpl; auto. }
  rewrite (get_decoded _ _ _ _ _ _ Hf Hb Hd).
  destruct (datetime_gt (naive now) dt) as [e|[|]]; simpl; auto.
  unfold after_except. destruct (is_NotFound e); simpl; auto.
Qed.

Lemma view_world pid now w : (view_paste pid now w).2 = (get_from_gcs pid now w).2.
Proof.
  unfold view_paste. destruct (get_from_gcs pid now w) as [[d|] w']; simpl;
    [destruct (truthy d)|]; reflexivity.
Qed.

(** What [get_from_gcs] returns is a dict that has an [expires_at], so the
    page shows it. *)
Lemma get_some_truthy pid now w data :
  (get_from_gcs pid now w).1 = Some data -> truthy data = true.
Proof.
  destruct (next_fault w) as [e|] eqn:Hf.
  { rewrite (get_fails _ _ _ _ Hf). discriminate. }
  destruct (bucket w !! blob_of pid) as [o|] eqn:Hb.
  2:{ rewrite (get_absent _ _ _ Hf Hb). discriminate. }
  destruct (decode_record (content o)) as [e|[data' dt]] eqn:Hd.
  { rewrite (get_undecodable _ _ _ _ _ Hf Hb Hd). discriminate. }
  rewrite (get_decoded _ _ _ _ _ _ Hf Hb Hd).
  destruct (datetime_gt (naive now) dt) as [e|[|]]; simpl; try discriminate.
  intros [= <-]. unfold decode_record in Hd.
  destruct (json_loads (content o)) as [e1|d]; [discriminate Hd|].
  destruct (getitem d "expires_at") as [e2|field] eqn:Hg; [discriminate Hd|].
  destruct (fromisoformat field); [discriminate Hd|]. injection Hd as -> _.
  destruct data' as [| | | | | |items]; try discriminate Hg.
  destruct items; [discriminate Hg | reflexivity].
Qed.

Lemma view_some pid now w data :
  (get_from_gcs pid now w).1 = Some data -> (view_paste pid now w).1 = PasteCard data.
Proof.
  intros Hg. pose proof (get_some_truthy _ _ _ _ Hg) as Ht.
  unfold view_paste. destruct (get_from_gcs pid now w) as [r w'].
  simpl in Hg. subst r. rewrite Ht. reflexivity.
Qed.

(** A submit with a non-blank snippet goes on to the upload. *)
Lemma submit_unfold editors client code lang rnd now w :
  editors !! client = Some code ->
  Str.blank code = false ->
  handle_submit editors client lang rnd now w
  = match save_to_gcs (fresh_pid rnd)
            (payload (fresh_pid rnd) code lang (isoformat (add_days (naive now) 30))) w with
    | (inr _, w') => (NavigateTo ("/v/" +:+ fresh_pid rnd), w')
    | (inl e, w') => (Notify ("Upload failed: " +:+ exc_str e) Negative, w')
    end.
Proof.
  intros He Hb. unfold handle_submit. rewrite He, strip_empty, Hb. reflexivity.
Qed.

Lemma submit_blank editors client lang rnd now w :
  match editors !! client with
  | Some code => Str.blank code = true
  | None => True
  end ->
  handle_submit editors client lang rnd now w = (Notify "Snippet is empty!" Warning, w).
Proof.
  unfold handle_submit. destruct (editors !! client) as [code|]; [|reflexivity].
  intros Hb. rewrite strip_empty, Hb. reflexivity.
Qed.

(** No exception leaves [get_from_gcs]: the call returns, and returns
    what [get_from_gcs] gives. *)
Lemma get_from_gcs_returns pid now w :
  get_from_gcs_call pid now w
  = (inr (get_from_gcs pid now w).1, (get_from_gcs pid now w).2).
Proof.
  unfold get_from_gcs, get_from_gcs_call, try_except.
  destruct (get_from_gcs_try pid now w) as [[e|r] w']; [|reflexivity].
  rewrite except_run. reflexivity.
Qed.

Lemma add_days_checked_ok now :
  0 <= now + 30 * micros_per_day <= datetime_max ->
  add_days_checked (naive now) 30 = inr (add_days (naive now) 30).
Proof.
  intros [Hlo Hhi]. unfold add_days_checked. simpl.
  destruct (Z.leb_spec 0 (now + 30 * micros_per_day)); [|lia].
  destruct (Z.leb_spec (now + 30 * micros_per_day) datetime_max); [|lia].
  reflexivity.
Qed.

Lemma add_days_checked_overflow now :
  ~ (0 <= now + 30 * micros_per_day <= datetime_max) ->
  add_days_checked (naive now) 30 = inl (Exc OverflowError "date value out of range").
Proof.
  intros Hout. unfold add_days_checked. simpl.
  destruct (Z.leb_spec 0 (now + 30 * micros_per_day));
    destruct (Z.leb_spec (now + 30 * micros_per_day) datetime_max);
    simpl; try reflexivity. lia.
Qed.

(** The call of [handle_submit] on a blank or missing snippet. *)
Lemma submit_call_blank editors client lang rnd now w :
  match editors !! client with
  | Some code => Str.blank code = true
  | None => True
  end ->
  handle_submit_call editors client lang rnd now w
  = (inr (Notify "Snippet is empty!" Warning), w).
Proof.
  unfold handle_submit_call. destruct (editors !! client) as [code|]; [|reflexivity].
  intros Hb. rewrite strip_empty, Hb. reflexivity.
Qed.

(** The call of [handle_submit] where the expiry is in range: it returns
    what [handle_submit] gives. *)
Lemma submit_call_in_range editors client code lang rnd now w :
  editors !! client = Some code ->
  Str.blank code = false ->
  0 <= now + 30 * micros_per_day <= datetime_max ->
  handle_submit_call editors client lang rnd now w
  = (inr (handle_submit editors client lang rnd now w).1,
     (handle_submit editors client lang rnd now w).2).
Proof.
  intros He Hb Hr. rewrite (submit_unfold _ _ _ _ _ _ _ He Hb).
  unfold handle_submit_call. rewrite He, strip_empty, Hb.
  unfold bind, lift. rewrite (add_days_checked_ok _ Hr). unfold try_except, bind, ret.
  destruct (save_to_gcs _ _ w) as [[e|u] w']; reflexivity.
Qed.

(** The call of [handle_submit] where the expiry is out of range. *)
Lemma submit_call_overflow editors client code lang rnd now w :
  editors !! client = Some code ->
  Str.blank code = false ->
  ~ (0 <= now + 30 * micros_per_day <= datetime_max) ->
  handle_submit_call editors client lang rnd now w
  = (inl (Exc OverflowError "date value out of range"), w).
Proof.
  intros He Hb Hr. unfold handle_submit_call. rewrite He, strip_empty, Hb.
  unfold bind, lift. rewrite (add_days_checked_overflow _ Hr). reflexivity.
Qed.

End Facts.

(** ** Create and retrieve *)

(** C1: a successful create of a snippet that is not blank, followed by a
    retrieve of the identifier it returned no later than thirty days after
    the create, yields a record whose [code] and [lang] are the inputs and
    whose [expires_at] reads as the time of the create plus thirty days.
    The runtime is asked to read back the JSON text and the ISO text it
    wrote for this record. *)
Theorem create_then_retrieve `{PyLib} editors client code lang rnd now later w url w1 :
  editors !! client = Some code ->
  Str.blank code = false ->
  handle_submit editors client lang rnd now w = (NavigateTo url, w1) ->
  next_fault w1 = None ->
  json_loads (json_dumps (payload (fresh_pid rnd) code lang (isoformat (add_days (naive now) 30))))
  = inr (payload (fresh_pid rnd) code lang (isoformat (add_days (naive now) 30))) ->
  parse_isoformat (isoformat (add_days (naive now) 30)) = inr (add_days (naive now) 30) ->
  later <= now + 30 * micros_per_day ->
  exists pid data field,
    url = "/v/" +:+ pid
    /\ (get_from_gcs pid later w1).1 = Some data
    /\ (view_paste pid later w1).1 = PasteCard data
    /\ getitem data "code" = inr (PStr code)
    /\ getitem data "lang" = inr (PStr lang)
    /\ getitem data "expires_at" = inr field
    /\ fromisoformat field = inr (naive (now + 30 * micros_per_day)).
Proof.
  intros He Hb Hs Hf1 Hjson Hiso Hlater.
  rewrite (submit_unfold _ _ _ _ _ _ _ He Hb) in Hs.
  destruct (next_fault w) as [e|] eqn:Hf.
  { rewrite (save_fails _ _ _ _ Hf) in Hs. discriminate Hs. }
  rewrite (save_ok _ _ _ Hf) in Hs. injection Hs as <- <-.
  set (expiry := isoformat (add_days (naive now) 30)) in *.
  set (record := payload (fresh_pid rnd) code lang expiry) in *.
  exists (fresh_pid rnd), record, (PStr expiry).
  assert (Hd : decode_record (json_dumps record) = inr (record, naive (now + 30 * micros_per_day))).
  { unfold decode_record. rewrite Hjson. simpl. fold expiry. rewrite Hiso. reflexivity. }
  set (w1 := store _ _ _) in *.
  assert (Hget : (get_from_gcs (fresh_pid rnd) later w1).1 = Some record).
  { erewrite get_decoded; [| exact Hf1 | apply lookup_insert_eq | exact Hd].
    simpl. destruct (Z.ltb_spec (now + 30 * micros_per_day) later); [lia | reflexivity]. }
  split; [reflexivity|]. split; [exact Hget|]. split; [exact (view_some _ _ _ _ Hget)|].
  repeat split; try reflexivity. simpl. fold expiry. exact Hiso.
Qed.

Lemma create_then_retrieve_witness :
  exists pid data field,
    "/v/1b9d6bcd" = "/v/" +:+ pid
    /\ (get_from_gcs (H:=PyRef.lib) pid (Sample.noon + 5000000)
          (handle_submit (H:=PyRef.lib) Sample.editors "client-1" "sql" Sample.rnd
             Sample.noon Sample.empty_world).2).1 = Some data
    /\ (view_paste (H:=PyRef.lib) pid (Sample.noon + 5000000)
          (handle_submit (H:=PyRef.lib) Sample.editors "client-1" "sql" Sample.rnd
             Sample.noon Sample.empty_world).2).1 = PasteCard data
    /\ getitem data "code" = inr (PStr "SELECT 1;")
    /\ getitem data "lang" = inr (PStr "sql")
    /\ getitem data "expires_at" = inr field
    /\ fromisoformat (H:=PyRef.lib) field = inr (naive (Sample.noon + 30 * micros_per_day)).
Proof.
  apply (create_then_retrieve (H:=PyRef.lib) Sample.editors "client-1" "SELECT 1;" "sql"
           Sample.rnd Sample.noon (Sample.noon + 5000000) Sample.empty_world).
  - vm_compute. reflexivity.
  - vm_compute. reflexivity.
  - vm_compute. reflexivity.
  - vm_compute. reflexivity.
  - vm_compute. reflexivity.
  - vm_compute. reflexivity.
  - vm_compute. discriminate.
Defined.

(** ** Expiry *)

(** C2, as the code has it: a stored record whose expiry parses to the
    naive time [e] is refused once the clock is past [e], the object staying
    in the bucket, and is served while the clock has not passed [e], the
    instant [e] included. *)
Theorem expiry_strict `{PyLib} pid now w o data e :
  next_fault w = None ->
  bucket w !! blob_of pid = Some o ->
  decode_record (content o) = inr (data, naive e) ->
  (e < now ->
     (get_from_gcs pid now w).1 = None
     /\ bucket (get_from_gcs pid now w).2 !! blob_of pid = Some o)
  /\ (now <= e -> (get_from_gcs pid now w).1 = Some data).
Proof.
  intros Hf Hb Hd. rewrite (get_decoded _ _ _ _ _ _ Hf Hb Hd). simpl.
  destruct (Z.ltb_spec e now) as [Hlt|Hge]; simpl; split; intros Hn;
    try lia; auto.
Qed.

Lemma expiry_strict_witness :
  (PyRef.clock 2025 1 31 12 0 0 < PyRef.clock 2025 1 31 12 0 1 ->
     (get_from_gcs (H:=PyRef.lib) "abc12345" (PyRef.clock 2025 1 31 12 0 1)
        Sample.stocked_world).1 = None
     /\ bucket (get_from_gcs (H:=PyRef.lib) "abc12345" (PyRef.clock 2025 1 31 12 0 1)
                  Sample.stocked_world).2 !! blob_of "abc12345"
        = Some (GcsObject (PyRef.dumps Sample.record) "application/json"))
  /\ (PyRef.clock 2025 1 31 12 0 1 <= PyRef.clock 2025 1 31 12 0 0 ->
        (get_from_gcs (H:=PyRef.lib) "abc12345" (PyRef.clock 2025 1 31 12 0 1)
           Sample.stocked_world).1 = Some Sample.record).
Proof.
  apply (expiry_strict (H:=PyRef.lib) "abc12345" (PyRef.clock 2025 1 31 12 0 1)
           Sample.stocked_world (GcsObject (PyRef.dumps Sample.record) "application/json")
           Sample.record (PyRef.clock 2025 1 31 12 0 0)).
  - vm_compute. reflexivity.
  - vm_compute. reflexivity.
  - vm_compute. reflexivity.
Defined.

(** C2, as stated, fails at the instant of expiry: the record that expires
    on 2025-01-31 at noon is still served when the clock reads exactly
    that. *)
Lemma expiry_inclusive_fails :
  ~ expiry_inclusive (H:=PyRef.lib) "abc12345" (PyRef.clock 2025 1 31 12 0 0)
      Sample.stocked_world.
Proof.
  intros Hclaim.
  destruct (Hclaim (GcsObject (PyRef.dumps Sample.record) "application/json")
              Sample.record (PyRef.clock 2025 1 31 12 0 0)) as [Hexp _].
  - vm_compute. reflexivity.
  - vm_compute. reflexivity.
  - vm_compute. reflexivity.
  - assert (Hle : PyRef.clock 2025 1 31 12 0 0 <= PyRef.clock 2025 1 31 12 0 0) by lia.
    specialize (Hexp Hle). vm_compute in Hexp. discriminate Hexp.
Qed.

(** ** Failures of the read path *)

(** C4, as the code has it: a read that fails with anything but [NotFound]
    and a read of a missing object both make [get_from_gcs] return [None];
    the failure shows only as a line on standard output. *)
Theorem read_failure_returns_none `{PyLib} pid now e w_down w_absent :
  next_fault w_down = Some e ->
  is_NotFound e = false ->
  next_fault w_absent = None ->
  bucket w_absent !! blob_of pid = None ->
  (get_from_gcs pid now w_down).1 = None
  /\ (get_from_gcs pid now w_absent).1 = None
  /\ stdout (get_from_gcs pid now w_down).2
     = stdout w_down ++ ["Error reading GCS: " +:+ exc_str e]
  /\ stdout (get_from_gcs pid now w_absent).2 = stdout w_absent.
Proof.
  intros Hd He Ha Hb.
  rewrite (get_fails _ _ _ _ Hd), (get_absent _ _ _ Ha Hb).
  unfold after_except. rewrite He. repeat split; reflexivity.
Qed.

Lemma read_failure_returns_none_witness :
  (get_from_gcs (H:=PyRef.lib) "abc12345" Sample.noon Sample.down_world).1 = None
  /\ (get_from_gcs (H:=PyRef.lib) "abc12345" Sample.noon Sample.empty_world).1 = None
  /\ stdout (get_from_gcs (H:=PyRef.lib) "abc12345" Sample.noon Sample.down_world).2
     = stdout Sample.down_world ++ ["Error reading GCS: " +:+ exc_str Sample.outage]
  /\ stdout (get_from_gcs (H:=PyRef.lib) "abc12345" Sample.noon Sample.empty_world).2
     = stdout Sample.empty_world.
Proof.
  apply (read_failure_returns_none (H:=PyRef.lib) "abc12345" Sample.noon Sample.outage
           Sample.down_world Sample.empty_world).
  - vm_compute. reflexivity.
  - vm_compute. reflexivity.
  - vm_compute. reflexivity.
  - vm_compute. reflexivity.
Defined.

(** C4, as stated, fails: with the service down, [get_from_gcs] returns
    what it returns for an object that does not exist. *)
Lemma failure_distinct_fails :
  ~ failure_distinct (H:=PyRef.lib) "abc12345" Sample.noon Sample.outage
      Sample.down_world Sample.empty_world.
Proof.
  intros Hclaim. apply Hclaim; vm_compute; reflexivity.
Qed.

(** C5: an object that is there but does not decode, because its text is
    not JSON, because it has no [expires_at] or because that field is not
    an ISO date, raises an exception [e] in the [try] block of
    [get_from_gcs]; the [except] clauses catch it: the call returns [None]
    and lets no exception out, having printed the error unless it is a
    [NotFound]; the page shows "Snippet Expired or Not Found". *)
Theorem malformed_is_not_found `{PyLib} pid now w o e :
  next_fault w = None ->
  bucket w !! blob_of pid = Some o ->
  decode_record (content o) = inl e ->
  (get_from_gcs_try pid now w).1 = inl e
  /\ (get_from_gcs_call pid now w).1 = inr None
  /\ stdout (get_from_gcs_call pid now w).2
     = stdout w ++ (if is_NotFound e then [] else ["Error reading GCS: " +:+ exc_str e])
  /\ (get_from_gcs pid now w).1 = None
  /\ (view_paste pid now w).1 = ExpiredOrNotFound.
Proof.
  intros Hf Hb Hd. split.
  { unfold blob_of in Hb. unfold decode_record in Hd.
    unfold get_from_gcs_try, bind, download_as_text, lift. rewrite Hf, Hb.
    destruct (json_loads (content o)) as [e1|data]; simplify_eq/=; [reflexivity|].
    destruct (getitem data "expires_at") as [e2|field]; simplify_eq/=; [reflexivity|].
    destruct (fromisoformat field) as [e3|dt]; simplify_eq/=. reflexivity. }
  unfold view_paste.
  rewrite get_from_gcs_returns, (get_undecodable _ _ _ _ _ Hf Hb Hd).
  unfold after_except. destruct (is_NotFound e); simpl; rewrite ?app_nil_r; auto.
Qed.

Lemma malformed_is_not_found_witness :
  (get_from_gcs_try (H:=PyRef.lib) "bad1" Sample.noon Sample.broken_world).1
  = inl (Exc JSONDecodeError "Expecting value")
  /\ (get_from_gcs_call (H:=PyRef.lib) "bad1" Sample.noon Sample.broken_world).1 = inr None
  /\ stdout (get_from_gcs_call (H:=PyRef.lib) "bad1" Sample.noon Sample.broken_world).2
     = stdout Sample.broken_world
       ++ (if is_NotFound (Exc JSONDecodeError "Expecting value") then []
           else ["Error reading GCS: " +:+ exc_str (Exc JSONDecodeError "Expecting value")])
  /\ (get_from_gcs (H:=PyRef.lib) "bad1" Sample.noon Sample.broken_world).1 = None
  /\ (view_paste (H:=PyRef.lib) "bad1" Sample.noon Sample.broken_world).1 = ExpiredOrNotFound.
Proof.
  apply (malformed_is_not_found (H:=PyRef.lib) "bad1" Sample.noon Sample.broken_world
           (GcsObject "{not json" "application/json")
           (Exc JSONDecodeError "Expecting value")).
  - vm_compute. reflexivity.
  - vm_compute. reflexivity.
  - vm_compute. reflexivity.
Defined.

Example malformed_samples :
  decode_record (H:=PyRef.lib) (PyRef.json_text "{'id': 'bad2', 'code': 'x'}")
  = inl (Exc KeyError "'expires_at'")
  /\ (get_from_gcs (H:=PyRef.lib) "bad2" Sample.noon Sample.broken_world).1 = None
  /\ decode_record (H:=PyRef.lib) (PyRef.json_text "{'expires_at': 'tomorrow'}")
     = inl (Exc ValueError "Invalid isoformat string: 'tomorrow'")
  /\ (get_from_gcs (H:=PyRef.lib) "bad3" Sample.noon Sample.broken_world).1 = None.
Proof. vm_compute. repeat split; reflexivity. Qed.

(** ** Validation *)

(** C3: a submit whose snippet is empty or holds only white space is
    answered with the warning "Snippet is empty!", whatever the language,
    and leaves the world as it was: no request is sent to the store. *)
Theorem blank_is_rejected `{PyLib} editors client code lang rnd now w :
  editors !! client = Some code ->
  Str.blank code = true ->
  handle_submit editors client lang rnd now w = (Notify "Snippet is empty!" Warning, w).
Proof.
  intros He Hb. apply submit_blank. rewrite He. exact Hb.
Qed.

Lemma blank_is_rejected_witness :
  handle_submit (H:=PyRef.lib) Sample.editors "client-2" "python" Sample.rnd Sample.noon
    Sample.down_world
  = (Notify "Snippet is empty!" Warning, Sample.down_world).
Proof.
  apply (blank_is_rejected (H:=PyRef.lib) Sample.editors "client-2" "   ").
  - vm_compute. reflexivity.
  - vm_compute. reflexivity.
Defined.

(** ** Identifiers never handed out *)

Section Reachable.

Context `{PyLib}.

Lemma submit_bucket editors client lang rnd now w name :
  is_Some (bucket (handle_submit editors client lang rnd now w).2 !! name) ->
  is_Some (bucket w !! name)
  \/ (created_id (handle_submit editors client lang rnd now w).1 = Some (fresh_pid rnd)
      /\ name = blob_of (fresh_pid rnd)).
Proof.
  destruct (editors !! client) as [code|] eqn:He.
  2:{ rewrite submit_blank by (rewrite He; exact I). simpl. auto. }
  destruct (Str.blank code) eqn:Hb.
  { rewrite submit_blank by (rewrite He; exact Hb). simpl. auto. }
  rewrite (submit_unfold _ _ _ _ _ _ _ He Hb).
  destruct (next_fault w) as [e|] eqn:Hf.
  { rewrite (save_fails _ _ _ _ Hf). simpl. auto. }
  rewrite (save_ok _ _ _ Hf). simpl.
  destruct (decide (blob_of (fresh_pid rnd) = name)) as [<-|Hne].
  - intros _. right. split; reflexivity.
  - rewrite lookup_insert_ne by exact Hne. auto.
Qed.

(** Every object in the bucket is the blob of an identifier handed out. *)
Lemma reachable_bucket w ids :
  reachable w ids ->
  forall name, is_Some (bucket w !! name) -> exists pid, pid ∈ ids /\ name = blob_of pid.
Proof.
  induction 1 as [fs | w ids fs _ IH | w ids editors client lang rnd now _ IH
                 | w ids paste_id now _ IH]; intros name Hin.
  - simpl in Hin. rewrite lookup_empty in Hin. destruct Hin as [? [=]].
  - apply IH, Hin.
  - destruct (submit_bucket _ _ _ _ _ _ _ Hin) as [Hold | [Hid ->]].
    + destruct (IH _ Hold) as (pid & Hpid & ->). exists pid. split; [|reflexivity].
      apply elem_of_app. right. exact Hpid.
    + exists (fresh_pid rnd). split; [|reflexivity].
      rewrite Hid. simpl. apply elem_of_cons. left. reflexivity.
  - rewrite view_world in Hin.
    destruct (get_frame paste_id now w) as [Hbk _]. rewrite Hbk in Hin.
    apply IH, Hin.
Qed.

End Reachable.

(** C6: in every world the service can reach from an empty bucket, an
    identifier that no submit has handed out has no object in the bucket
    and retrieves nothing: the call of [get_from_gcs] returns [None] and
    lets no exception out; when the storage service answers, it is the
    [NotFound] of the download that the [try] block raises, and the clause
    [except NotFound] returns [None] without printing. *)
Theorem never_created_is_not_found `{PyLib} w ids pid now :
  reachable w ids ->
  pid ∉ ids ->
  bucket w !! (pid +:+ ".json") = None
  /\ (get_from_gcs_call pid now w).1 = inr None
  /\ (next_fault w = None ->
      (exists e, (get_from_gcs_try pid now w).1 = inl e /\ exc_cls e = NotFound)
      /\ stdout (get_from_gcs_call pid now w).2 = stdout w)
  /\ (get_from_gcs pid now w).1 = None
  /\ (view_paste pid now w).1 = ExpiredOrNotFound.
Proof.
  intros Hr Hfresh.
  assert (Hb : bucket w !! blob_of pid = None).
  { destruct (bucket w !! blob_of pid) as [o|] eqn:Hb; [|reflexivity].
    destruct (reachable_bucket _ _ Hr (blob_of pid)) as (pid' & Hin & Heq).
    - rewrite Hb. eexists. reflexivity.
    - apply blob_name_inj in Heq. subst pid'. contradiction. }
  split; [exact Hb|].
  unfold view_paste. rewrite get_from_gcs_returns.
  destruct (next_fault w) as [e|] eqn:Hf.
  - rewrite (get_fails _ _ _ _ Hf).
    split; [reflexivity|]. split; [discriminate|]. split; reflexivity.
  - rewrite (get_absent _ _ _ Hf Hb).
    split; [reflexivity|]. split; [|split; reflexivity].
    intros _. split; [|reflexivity].
    unfold get_from_gcs_try, bind, download_as_text. unfold blob_of in Hb.
    rewrite Hf, Hb. eexists. split; reflexivity.
Qed.

Lemma never_created_is_not_found_witness :
  bucket (handle_submit (H:=PyRef.lib) Sample.editors "client-1" "sql" Sample.rnd Sample.noon
            Sample.empty_world).2 !! ("doesnotexist" +:+ ".json") = None
  /\ (get_from_gcs_call (H:=PyRef.lib) "doesnotexist" Sample.noon
        (handle_submit (H:=PyRef.lib) Sample.editors "client-1" "sql" Sample.rnd Sample.noon
           Sample.empty_world).2).1 = inr None
  /\ (next_fault (handle_submit (H:=PyRef.lib) Sample.editors "client-1" "sql" Sample.rnd
                    Sample.noon Sample.empty_world).2 = None ->
      (exists e,
         (get_from_gcs_try (H:=PyRef.lib) "doesnotexist" Sample.noon
            (handle_submit (H:=PyRef.lib) Sample.editors "client-1" "sql" Sample.rnd
               Sample.noon Sample.empty_world).2).1 = inl e
         /\ exc_cls e = NotFound)
      /\ stdout (get_from_gcs_call (H:=PyRef.lib) "doesnotexist" Sample.noon
                   (handle_submit (H:=PyRef.lib) Sample.editors "client-1" "sql" Sample.rnd
                      Sample.noon Sample.empty_world).2).2
         = stdout (handle_submit (H:=PyRef.lib) Sample.editors "client-1" "sql" Sample.rnd
                     Sample.noon Sample.empty_world).2)
  /\ (get_from_gcs (H:=PyRef.lib) "doesnotexist" Sample.noon
     (handle_submit (H:=PyRef.lib) Sample.editors "client-1" "sql" Sample.rnd Sample.noon
        Sample.empty_world).2).1 = None
  /\ (view_paste (H:=PyRef.lib) "doesnotexist" Sample.noon
        (handle_submit (H:=PyRef.lib) Sample.editors "client-1" "sql" Sample.rnd Sample.noon
           Sample.empty_world).2).1 = ExpiredOrNotFound.
Proof.
  apply (never_created_is_not_found (H:=PyRef.lib) _ ["1b9d6bcd"]).
  - apply (reach_submit (H:=PyRef.lib) Sample.empty_world [] Sample.editors "client-1" "sql"
             Sample.rnd Sample.noon (reach_start [])).
  - intros Hin. apply list_elem_of_singleton in Hin. discriminate Hin.
Defined.

(** ** Failures of the write path *)

(** C7: when a submit reaches its upload, the expiry being in the range
    of [datetime], and the upload fails with [e], the handler catches [e]:
    the call returns, the user is told "Upload failed: " and the text of
    [e], no link is handed out, nothing is written, and the upload has been
    tried once: one request was sent and the answers scripted for later
    requests are all still to come. *)
Theorem upload_failure_surfaces `{PyLib} editors client code lang rnd now w e :
  editors !! client = Some code ->
  Str.blank code = false ->
  0 <= now + 30 * micros_per_day <= datetime_max ->
  next_fault w = Some e ->
  handle_submit_call editors client lang rnd now w
  = (inr (Notify ("Upload failed: " +:+ exc_str e) Negative),
     sent (Upload (fresh_pid rnd +:+ ".json")
             (json_dumps (payload (fresh_pid rnd) code lang
                            (isoformat (add_days (naive now) 30))))) w)
  /\ (handle_submit editors client lang rnd now w).1
  = Notify ("Upload failed: " +:+ exc_str e) Negative
  /\ created_id (handle_submit editors client lang rnd now w).1 = None
  /\ (exists text,
        requests (handle_submit editors client lang rnd now w).2
        = requests w ++ [Upload (blob_of (fresh_pid rnd)) text])
  /\ faults (handle_submit editors client lang rnd now w).2 = tail (faults w)
  /\ bucket (handle_submit editors client lang rnd now w).2 = bucket w.
Proof.
  intros He Hb Hr Hf.
  rewrite (submit_call_in_range _ _ _ _ _ _ _ He Hb Hr).
  rewrite (submit_unfold _ _ _ _ _ _ _ He Hb), (save_fails _ _ _ _ Hf). simpl.
  repeat split; try reflexivity. eexists. reflexivity.
Qed.

Lemma upload_failure_surfaces_witness :
  handle_submit_call (H:=PyRef.lib) Sample.editors "client-1" "sql" Sample.rnd Sample.noon
    Sample.down_world
  = (inr (Notify ("Upload failed: " +:+ exc_str Sample.outage) Negative),
     sent (Upload (fresh_pid Sample.rnd +:+ ".json")
             (json_dumps (PyLib:=PyRef.lib)
                (payload (fresh_pid Sample.rnd) "SELECT 1;" "sql"
                   (isoformat (PyLib:=PyRef.lib) (add_days (naive Sample.noon) 30)))))
       Sample.down_world)
  /\ (handle_submit (H:=PyRef.lib) Sample.editors "client-1" "sql" Sample.rnd Sample.noon
     Sample.down_world).1
  = Notify ("Upload failed: " +:+ exc_str Sample.outage) Negative
  /\ created_id (handle_submit (H:=PyRef.lib) Sample.editors "client-1" "sql" Sample.rnd
                   Sample.noon Sample.down_world).1 = None
  /\ (exists text,
        requests (handle_submit (H:=PyRef.lib) Sample.editors "client-1" "sql" Sample.rnd
                    Sample.noon Sample.down_world).2
        = requests Sample.down_world ++ [Upload (blob_of (fresh_pid Sample.rnd)) text])
  /\ faults (handle_submit (H:=PyRef.lib) Sample.editors "client-1" "sql" Sample.rnd
               Sample.noon Sample.down_world).2 = tail (faults Sample.down_world)
  /\ bucket (handle_submit (H:=PyRef.lib) Sample.editors "client-1" "sql" Sample.rnd
               Sample.noon Sample.down_world).2 = bucket Sample.down_world.
Proof.
  apply (upload_failure_surfaces (H:=PyRef.lib) Sample.editors "client-1" "SELECT 1;").
  - vm_compute. reflexivity.
  - vm_compute. reflexivity.
  - vm_compute. split; discriminate.
  - vm_compute. reflexivity.
Defined.

(** ** Storage keys *)

(** C8: a save that the service accepts writes one object, under the
    identifier followed by [.json], and touches no other; a retrieve of the
    same identifier asks for that very name and is given the text that was
    written, so that the record comes back whenever the runtime reads back
    what it wrote and the record has not expired; and two identifiers that
    share a blob name are the same identifier. *)
Theorem one_object_per_paste `{PyLib} pid data now w :
  next_fault w = None ->
  (save_to_gcs pid data w).1 = inr tt
  /\ bucket (save_to_gcs pid data w).2
     = <[pid +:+ ".json" := GcsObject (json_dumps data) "application/json"]> (bucket w)
  /\ requests (save_to_gcs pid data w).2
     = requests w ++ [Upload (pid +:+ ".json") (json_dumps data)]
  /\ requests (get_from_gcs pid now (save_to_gcs pid data w).2).2
     = requests (save_to_gcs pid data w).2 ++ [Download (pid +:+ ".json")]
  /\ (next_fault (save_to_gcs pid data w).2 = None ->
      (download_as_text (pid +:+ ".json") (save_to_gcs pid data w).2).1
      = inr (json_dumps data))
  /\ (forall dt,
        next_fault (save_to_gcs pid data w).2 = None ->
        decode_record (json_dumps data) = inr (data, dt) ->
        datetime_gt (naive now) dt = inr false ->
        (get_from_gcs pid now (save_to_gcs pid data w).2).1 = Some data)
  /\ (forall pid', pid' +:+ ".json" = pid +:+ ".json" -> pid' = pid).
Proof.
  intros Hf. rewrite (save_ok _ _ _ Hf). cbn [fst snd].
  set (w1 := store _ _ _).
  assert (Hb : bucket w1 !! blob_of pid
               = Some (GcsObject (json_dumps data) "application/json")).
  { apply lookup_insert_eq. }
  repeat split.
  - apply (get_frame pid now w1).
  - intros Hf1. unfold download_as_text. rewrite Hf1.
    unfold blob_of in Hb. rewrite Hb. reflexivity.
  - intros dt Hf1 Hd Hgt. rewrite (get_decoded _ _ _ _ _ _ Hf1 Hb Hd), Hgt. reflexivity.
  - intros pid'. apply blob_name_inj.
Qed.

Lemma one_object_per_paste_witness :
  bucket (save_to_gcs (H:=PyRef.lib) "abc12345" Sample.record Sample.empty_world).2
  = <["abc12345" +:+ ".json" := GcsObject (PyRef.dumps Sample.record) "application/json"]> ∅
  /\ (get_from_gcs (H:=PyRef.lib) "abc12345" Sample.noon
        (save_to_gcs (H:=PyRef.lib) "abc12345" Sample.record Sample.empty_world).2).1
     = Some Sample.record.
Proof.
  destruct (one_object_per_paste (H:=PyRef.lib) "abc12345" Sample.record Sample.noon
              Sample.empty_world) as (_ & Hbucket & _ & _ & _ & Hback & _).
  - vm_compute. reflexivity.
  - split; [exact Hbucket|].
    apply (Hback (naive (PyRef.clock 2025 1 31 12 0 0))).
    + vm_compute. reflexivity.
    + vm_compute. reflexivity.
    + vm_compute. reflexivity.
Defined.

(** ** Shape of the identifiers *)

(** C9: the identifier a submit hands out is the first eight characters of
    the text of the version-4 UUID drawn for it, and is eight characters
    long. *)
Theorem created_id_has_eight_chars `{PyLib} editors client lang rnd now w url w' :
  handle_submit editors client lang rnd now w = (NavigateTo url, w') ->
  exists pid,
    url = "/v/" +:+ pid
    /\ created_id (NavigateTo url) = Some pid
    /\ pid = Str.take 8 (UUID.str (UUID.uuid4 rnd))
    /\ Str.len pid = 8%nat.
Proof.
  intros Hs. unfold handle_submit in Hs.
  destruct (editors !! client) as [code|]; [|discriminate Hs].
  destruct (Str.is_empty (Str.strip code)); [discriminate Hs|].
  destruct (save_to_gcs _ _ w) as [[e|u] w1]; [discriminate Hs|].
  injection Hs as <- <-. exists (fresh_pid rnd).
  split; [reflexivity|]. split; [reflexivity|]. split; [reflexivity|].
  apply fresh_pid_length.
Qed.

Lemma created_id_has_eight_chars_witness :
  exists pid,
    "/v/1b9d6bcd" = "/v/" +:+ pid
    /\ created_id (NavigateTo "/v/1b9d6bcd") = Some pid
    /\ pid = Str.take 8 (UUID.str (UUID.uuid4 Sample.rnd))
    /\ Str.len pid = 8%nat.
Proof.
  apply (created_id_has_eight_chars (H:=PyRef.lib) Sample.editors "client-1" "sql"
           Sample.rnd Sample.noon Sample.empty_world "/v/1b9d6bcd"
           (handle_submit (H:=PyRef.lib) Sample.editors "client-1" "sql" Sample.rnd
              Sample.noon Sample.empty_world).2).
  vm_compute. reflexivity.
Defined.

(** ** Retrieval does not write *)

(** C10: a retrieve, through [get_from_gcs] or through the page
    [view_paste], leaves the bucket as it found it, whether the record is
    served, expired, malformed or absent and whether the service answers
    or not; the one request it sends is a download. *)
Theorem retrieve_is_a_pure_read `{PyLib} pid now w :
  bucket (get_from_gcs pid now w).2 = bucket w
  /\ requests (get_from_gcs pid now w).2 = requests w ++ [Download (pid +:+ ".json")]
  /\ bucket (view_paste pid now w).2 = bucket w
  /\ requests (view_paste pid now w).2 = requests w ++ [Download (pid +:+ ".json")].
Proof.
  rewrite view_world.
  destruct (get_frame pid now w) as (Hb & Hr & _). auto.
Qed.

(** * Further properties of the code *)

(** ** What a retrieve serves *)

(** X1: a record that [get_from_gcs] returns was served by the storage
    service, is the decoding of the object stored under the identifier
    followed by [.json], and carries a naive expiry that the clock has not
    passed. *)
Theorem served_record_is_stored `{PyLib} pid now w data :
  (get_from_gcs pid now w).1 = Some data ->
  next_fault w = None
  /\ exists o e,
       bucket w !! (pid +:+ ".json") = Some o
       /\ decode_record (content o) = inr (data, naive e)
       /\ now <= e.
Proof.
  destruct (next_fault w) as [e|] eqn:Hf.
  { rewrite (get_fails _ _ _ _ Hf). discriminate. }
  destruct (bucket w !! blob_of pid) as [o|] eqn:Hb.
  2:{ rewrite (get_absent _ _ _ Hf Hb). discriminate. }
  destruct (decode_record (content o)) as [e|[data' dt]] eqn:Hd.
  { rewrite (get_undecodable _ _ _ _ _ Hf Hb Hd). discriminate. }
  rewrite (get_decoded _ _ _ _ _ _ Hf Hb Hd).
  destruct dt as [t [off|]]; simpl; [discriminate|].
  destruct (Z.ltb_spec t now) as [Hlt|Hge]; simpl; [discriminate|].
  intros [= <-]. split; [reflexivity|]. exists o, t. auto.
Qed.

Lemma served_record_is_stored_witness :
  next_fault Sample.stocked_world = None
  /\ exists o e,
       bucket Sample.stocked_world !! ("abc12345" +:+ ".json") = Some o
       /\ decode_record (H:=PyRef.lib) (content o) = inr (Sample.record, naive e)
       /\ Sample.noon <= e.
Proof.
  apply (served_record_is_stored (H:=PyRef.lib) "abc12345" Sample.noon Sample.stocked_world
           Sample.record).
  vm_compute. reflexivity.
Defined.

(** X2: a record whose [expires_at] carries a UTC offset is never served:
    the comparison with the naive [datetime.now()] raises, [get_from_gcs]
    returns [None] and the error is printed. *)
Theorem aware_expiry_is_never_served `{PyLib} pid now w o data t off :
  next_fault w = None ->
  bucket w !! (pid +:+ ".json") = Some o ->
  decode_record (content o) = inr (data, DateTime t (Some off)) ->
  (get_from_gcs pid now w).1 = None
  /\ stdout (get_from_gcs pid now w).2
     = stdout w ++ ["Error reading GCS: can't compare offset-naive and offset-aware datetimes"].
Proof.
  intros Hf Hb Hd. rewrite (get_decoded _ _ _ _ _ _ Hf Hb Hd). simpl.
  split; reflexivity.
Qed.

Lemma aware_expiry_is_never_served_witness :
  (get_from_gcs (H:=PyRef.lib) "tz" Sample.noon Sample2.zoned_world).1 = None
  /\ stdout (get_from_gcs (H:=PyRef.lib) "tz" Sample.noon Sample2.zoned_world).2
     = stdout Sample2.zoned_world
       ++ ["Error reading GCS: can't compare offset-naive and offset-aware datetimes"].
Proof.
  apply (aware_expiry_is_never_served (H:=PyRef.lib) "tz" Sample.noon Sample2.zoned_world
           (GcsObject (PyRef.json_text "{'expires_at': '2099-01-01T00:00:00+02:00'}")
              "application/json")
           (PDict [("expires_at", PStr "2099-01-01T00:00:00+02:00")])
           (PyRef.clock 2099 1 1 0 0 0) (2 * PyRef.micros_per_hour)).
  - vm_compute. reflexivity.
  - vm_compute. reflexivity.
  - vm_compute. reflexivity.
Defined.

(** X3: when a retrieve that the storage service answered has returned
    nothing, because the object was missing, did not decode or had expired,
    every retrieve at a later time against a bucket that holds the same
    under that blob name returns nothing, whatever the storage service does
    then: no record comes back to life as the clock advances. *)
Theorem refusal_is_permanent `{PyLib} pid now later w w' :
  next_fault w = None ->
  bucket w' !! (pid +:+ ".json") = bucket w !! (pid +:+ ".json") ->
  now <= later ->
  (get_from_gcs pid now w).1 = None ->
  (get_from_gcs pid later w').1 = None.
Proof.
  intros Hf Hsame Hle.
  change (bucket w' !! blob_of pid = bucket w !! blob_of pid) in Hsame.
  destruct (next_fault w') as [e'|] eqn:Hf'.
  { rewrite (get_fails _ _ _ _ Hf'). auto. }
  destruct (bucket w !! blob_of pid) as [o|] eqn:Hb.
  2:{ rewrite (get_absent _ _ _ Hf' Hsame). auto. }
  destruct (decode_record (content o)) as [e|[data dt]] eqn:Hd.
  { rewrite (get_undecodable _ _ _ _ _ Hf' Hsame Hd). auto. }
  rewrite (get_decoded _ _ _ _ _ _ Hf Hb Hd), (get_decoded _ _ _ _ _ _ Hf' Hsame Hd).
  destruct dt as [t [off|]]; simpl; [auto|].
  destruct (Z.ltb_spec t now) as [Hlt|Hge]; simpl; [|discriminate].
  intros _. destruct (Z.ltb_spec t later); [reflexivity | lia].
Qed.

Lemma refusal_is_permanent_witness :
  (get_from_gcs (H:=PyRef.lib) "abc12345" (PyRef.clock 2025 3 1 0 0 0)
     (get_from_gcs (H:=PyRef.lib) "abc12345" (PyRef.clock 2025 1 31 12 0 1)
        Sample.stocked_world).2).1 = None.
Proof.
  apply (refusal_is_permanent (H:=PyRef.lib) "abc12345" (PyRef.clock 2025 1 31 12 0 1)
           (PyRef.clock 2025 3 1 0 0 0) Sample.stocked_world).
  - vm_compute. reflexivity.
  - vm_compute. reflexivity.
  - vm_compute. discriminate.
  - vm_compute. reflexivity.
Defined.

(** What [get_from_gcs] returns depends on the world only through the fate
    of its request and the object under its blob name. *)
Lemma get_local `{PyLib} pid now w1 w2 :
  next_fault w1 = next_fault w2 ->
  bucket w1 !! blob_of pid = bucket w2 !! blob_of pid ->
  (get_from_gcs pid now w1).1 = (get_from_gcs pid now w2).1.
Proof.
  intros Hf Hb.
  destruct (next_fault w2) as [e|] eqn:Hf2.
  { rewrite (get_fails _ _ _ _ Hf), (get_fails _ _ _ _ Hf2). reflexivity. }
  destruct (bucket w2 !! blob_of pid) as [o|] eqn:Hb2.
  2:{ rewrite (get_absent _ _ _ Hf Hb), (get_absent _ _ _ Hf2 Hb2). reflexivity. }
  destruct (decode_record (content o)) as [e|[data dt]] eqn:Hd.
  { rewrite (get_undecodable _ _ _ _ _ Hf Hb Hd), (get_undecodable _ _ _ _ _ Hf2 Hb2 Hd).
    reflexivity. }
  rewrite (get_decoded _ _ _ _ _ _ Hf Hb Hd), (get_decoded _ _ _ _ _ _ Hf2 Hb2 Hd).
  destruct (datetime_gt (naive now) dt) as [e|[|]]; reflexivity.
Qed.

(** X4: saving a record under one identifier, whether the upload succeeds
    or fails, changes nothing of what another identifier retrieves,
    whatever the storage service does next. *)
Theorem save_keeps_other_pastes `{PyLib} pid other data now fs w :
  other <> pid ->
  (get_from_gcs other now (forecast fs (save_to_gcs pid data w).2)).1
  = (get_from_gcs other now (forecast fs w)).1.
Proof.
  intros Hne. apply get_local; [reflexivity|]. simpl.
  destruct (next_fault w) as [e|] eqn:Hf.
  - rewrite (save_fails _ _ _ _ Hf). reflexivity.
  - rewrite (save_ok _ _ _ Hf). simpl. apply lookup_insert_ne.
    intros Heq. apply blob_name_inj in Heq. congruence.
Qed.

Lemma save_keeps_other_pastes_witness :
  (get_from_gcs (H:=PyRef.lib) "abc12345" Sample.noon
     (forecast [] (save_to_gcs (H:=PyRef.lib) "ffffffff" (PStr "x") Sample.stocked_world).2)).1
  = (get_from_gcs (H:=PyRef.lib) "abc12345" Sample.noon (forecast [] Sample.stocked_world)).1.
Proof.
  apply (save_keeps_other_pastes (H:=PyRef.lib) "ffffffff" "abc12345").
  discriminate.
Defined.

(** X5: a second save under an identifier replaces the object of the
    first without a word: the bucket is as if only the second had been
    made, and a download gives the second text. *)
Theorem save_overwrites `{PyLib} pid first second w :
  next_fault w = None ->
  next_fault (save_to_gcs pid first w).2 = None ->
  (save_to_gcs pid second (save_to_gcs pid first w).2).1 = inr tt
  /\ bucket (save_to_gcs pid second (save_to_gcs pid first w).2).2
     = <[pid +:+ ".json" := GcsObject (json_dumps second) "application/json"]> (bucket w)
  /\ forall fs,
       (download_as_text (pid +:+ ".json")
          (forecast (None :: fs) (save_to_gcs pid second (save_to_gcs pid first w).2).2)).1
       = inr (json_dumps second).
Proof.
  intros Hf Hf1. rewrite (save_ok _ _ _ Hf) in *. cbn [fst snd] in *.
  rewrite (save_ok _ _ _ Hf1). cbn [fst snd]. unfold blob_of.
  split; [reflexivity|]. split.
  - simpl. apply insert_insert_eq.
  - intros fs. unfold download_as_text. simpl. rewrite lookup_insert_eq. reflexivity.
Qed.

Lemma save_overwrites_witness :
  bucket (save_to_gcs (H:=PyRef.lib) "abc12345" Sample.record
            (save_to_gcs (H:=PyRef.lib) "abc12345" (PStr "old") Sample.empty_world).2).2
  = <["abc12345" +:+ ".json" := GcsObject (PyRef.dumps Sample.record) "application/json"]> ∅.
Proof.
  destruct (save_overwrites (H:=PyRef.lib) "abc12345" (PStr "old") Sample.record
              Sample.empty_world) as (_ & Hb & _).
  - vm_compute. reflexivity.
  - vm_compute. reflexivity.
  - exact Hb.
Defined.

(** ** What a submit does to the store *)

(** The three ways a submit can end. *)
Lemma submit_cases `{PyLib} editors client lang rnd now w :
  handle_submit editors client lang rnd now w = (Notify "Snippet is empty!" Warning, w)
  \/ (exists code e,
        editors !! client = Some code /\ Str.blank code = false
        /\ next_fault w = Some e
        /\ handle_submit editors client lang rnd now w
           = (Notify ("Upload failed: " +:+ exc_str e) Negative,
              sent (Upload (blob_of (fresh_pid rnd))
                      (json_dumps (payload (fresh_pid rnd) code lang
                                     (isoformat (add_days (naive now) 30))))) w))
  \/ (exists code,
        editors !! client = Some code /\ Str.blank code = false
        /\ next_fault w = None
        /\ handle_submit editors client lang rnd now w
           = (NavigateTo ("/v/" +:+ fresh_pid rnd),
              store (blob_of (fresh_pid rnd))
                (GcsObject (json_dumps (payload (fresh_pid rnd) code lang
                                          (isoformat (add_days (naive now) 30))))
                   "application/json")
                (sent (Upload (blob_of (fresh_pid rnd))
                         (json_dumps (payload (fresh_pid rnd) code lang
                                        (isoformat (add_days (naive now) 30))))) w))).
Proof.
  destruct (editors !! client) as [code|] eqn:He.
  2:{ left. apply submit_blank. rewrite He. exact I. }
  destruct (Str.blank code) eqn:Hb.
  { left. apply submit_blank. rewrite He. exact Hb. }
  rewrite (submit_unfold _ _ _ _ _ _ _ He Hb).
  destruct (next_fault w) as [e|] eqn:Hf.
  - right. left. exists code, e. rewrite (save_fails _ _ _ _ Hf). auto.
  - right. right. exists code. rewrite (save_ok _ _ _ Hf). auto.
Qed.

(** X6: a submit sends at most one request to the storage service, and
    that request is an upload: it never reads the bucket; and it prints
    nothing. *)
Theorem submit_sends_at_most_one_upload `{PyLib} editors client lang rnd now w :
  exists new,
    requests (handle_submit editors client lang rnd now w).2 = requests w ++ new
    /\ (length new <= 1)%nat
    /\ forallb is_upload new = true
    /\ stdout (handle_submit editors client lang rnd now w).2 = stdout w.
Proof.
  destruct (submit_cases editors client lang rnd now w)
    as [-> | [(code & e & _ & _ & _ & ->) | (code & _ & _ & _ & ->)]].
  - exists []. simpl. rewrite app_nil_r. auto.
  - eexists [_]. simpl. auto.
  - eexists [_]. simpl. auto.
Qed.

(** X7: the bucket changes only when the submit hands out a link. Then
    one object is written, of content type [application/json], under the
    identifier of the link followed by [.json]; it is the JSON text of a
    record whose [id] is that identifier, whose [code] is the text of the
    editor, which is not blank, and whose [lang] is the language selected.
    A submit that ends on a notification leaves the bucket alone. *)
Theorem submit_writes_the_record `{PyLib} editors client lang rnd now w :
  match (handle_submit editors client lang rnd now w).1 with
  | NavigateTo url =>
      exists pid code expiry,
        url = "/v/" +:+ pid
        /\ editors !! client = Some code
        /\ Str.blank code = false
        /\ expiry = isoformat (add_days (naive now) 30)
        /\ bucket (handle_submit editors client lang rnd now w).2
           = <[pid +:+ ".json" :=
                 GcsObject (json_dumps (PDict [("id", PStr pid); ("code", PStr code);
                                               ("lang", PStr lang);
                                               ("expires_at", PStr expiry)]))
                   "application/json"]> (bucket w)
  | Notify _ _ => bucket (handle_submit editors client lang rnd now w).2 = bucket w
  end.
Proof.
  destruct (submit_cases editors client lang rnd now w)
    as [-> | [(code & e & _ & _ & _ & ->) | (code & He & Hb & _ & ->)]]; simpl.
  - reflexivity.
  - reflexivity.
  - exists (fresh_pid rnd), code, (isoformat (add_days (naive now) 30)). auto.
Qed.

(** X8: neither a submit nor a view ever removes an object from the
    bucket. *)
Theorem nothing_is_deleted `{PyLib} editors client lang rnd pid now w name :
  is_Some (bucket w !! name) ->
  is_Some (bucket (handle_submit editors client lang rnd now w).2 !! name)
  /\ is_Some (bucket (view_paste pid now w).2 !! name).
Proof.
  intros Hin. split.
  - destruct (submit_cases editors client lang rnd now w)
      as [-> | [(code & e & _ & _ & _ & ->) | (code & _ & _ & _ & ->)]]; simpl; auto.
    apply lookup_insert_is_Some'. auto.
  - rewrite view_world. destruct (get_frame pid now w) as [-> _]. exact Hin.
Qed.

Lemma nothing_is_deleted_witness :
  is_Some (bucket (handle_submit (H:=PyRef.lib) Sample.editors "client-1" "sql" Sample.rnd
                     (PyRef.clock 2030 1 1 0 0 0) Sample.stocked_world).2 !! "abc12345.json")
  /\ is_Some (bucket (view_paste (H:=PyRef.lib) "abc12345" (PyRef.clock 2030 1 1 0 0 0)
                        Sample.stocked_world).2 !! "abc12345.json").
Proof.
  apply (nothing_is_deleted (H:=PyRef.lib) Sample.editors "client-1" "sql" Sample.rnd
           "abc12345" _ Sample.stocked_world "abc12345.json").
  vm_compute. eexists. reflexivity.
Defined.

(** X9: the page takes the branch of the card "Snippet Expired or Not
    Found" exactly when [get_from_gcs] returns [None]: the test [if data:]
    never sends a returned record there, for a returned record is a dict
    with an [expires_at] and so is not empty. *)
Theorem not_found_card_iff_none `{PyLib} pid now w :
  (view_paste pid now w).1 = ExpiredOrNotFound <-> (get_from_gcs pid now w).1 = None.
Proof.
  split.
  - destruct (get_from_gcs pid now w).1 as [data|] eqn:Hg; [|reflexivity].
    rewrite (view_some _ _ _ _ Hg). discriminate.
  - unfold view_paste. destruct (get_from_gcs pid now w) as [[d|] w']; simpl.
    + discriminate.
    + reflexivity.
Qed.

(** ** The identifier and the random bits *)

Lemma string_app_assoc a b c : (a +:+ b) +:+ c = a +:+ (b +:+ c).
Proof.
  induction a as [|x a IH]; [reflexivity|].
  rewrite !append_cons, IH. reflexivity.
Qed.

Lemma hex_digits_acc n v acc :
  UUID.hex_digits n v acc = UUID.hex_digits n v EmptyString +:+ acc.
Proof.
  revert v acc. induction n as [|n IH]; intros v acc; simpl; [reflexivity|].
  rewrite (IH _ (String _ acc)), (IH _ (String _ EmptyString)).
  rewrite string_app_assoc. reflexivity.
Qed.

Lemma hex_digits_split a b v acc :
  UUID.hex_digits (a + b) v acc
  = UUID.hex_digits a (v / 16 ^ Z.of_nat b) (UUID.hex_digits b v acc).
Proof.
  revert v acc. induction b as [|b IH]; intros v acc.
  - rewrite Nat.add_0_r. simpl. rewrite Z.div_1_r. reflexivity.
  - rewrite Nat.add_succ_r. simpl UUID.hex_digits. rewrite IH.
    rewrite Nat2Z.inj_succ, Z.pow_succ_r by lia.
    rewrite Z.div_div by lia. reflexivity.
Qed.

Lemma take_exact s t : Str.take (String.length s) (s +:+ t) = s.
Proof.
  induction s as [|c s IH]; simpl.
  - destruct t; reflexivity.
  - rewrite IH. reflexivity.
Qed.

(** The random bits above bit 96 go through [uuid4] untouched. *)
Lemma uuid4_top rnd : UUID.uuid4 rnd / 2 ^ 96 = rnd / 2 ^ 96.
Proof.
  rewrite <- !Z.shiftr_div_pow2 by lia. unfold UUID.uuid4.
  rewrite !Z.shiftr_lor, !Z.shiftr_land, !Z.shiftr_lor, !Z.shiftr_land.
  change (Z.shiftr (Z.shiftl 4 76) 96) with 0.
  change (Z.shiftr (Z.shiftl 0x8000 48) 96) with 0.
  change (Z.shiftr (Z.lnot (Z.shiftl 0xf000 64)) 96) with (-1).
  change (Z.shiftr (Z.lnot (Z.shiftl 0xc000 48)) 96) with (-1).
  rewrite !Z.lor_0_r, !Z.land_m1_r. reflexivity.
Qed.

Lemma fresh_pid_digits rnd :
  fresh_pid rnd = UUID.hex_digits 8 (rnd / 2 ^ 96) EmptyString.
Proof.
  rewrite fresh_pid_hex. unfold UUID.hex32.
  change 32%nat with (8 + 24)%nat. rewrite hex_digits_split, hex_digits_acc.
  change (16 ^ Z.of_nat 24) with (2 ^ 96). rewrite uuid4_top.
  set (h := UUID.hex_digits 8 _ _).
  replace 8%nat with (String.length h) at 1.
  - apply take_exact.
  - unfold h. rewrite hex_digits_length. reflexivity.
Qed.

(** X10: the identifier is the text, in eight hexadecimal digits, of the
    32 highest of the 128 random bits; the version and variant bits that
    [uuid4] sets, and the 96 lower bits, play no part in it. *)
Theorem fresh_pid_top_bits rnd :
  fresh_pid rnd = UUID.hex_digits 8 (rnd / 2 ^ 96) EmptyString.
Proof. apply fresh_pid_digits. Qed.

Lemma hex_digit_code d :
  0 <= d < 16 ->
  Z.of_N (N_of_ascii (UUID.hex_digit d)) = if d <? 10 then 48 + d else 87 + d.
Proof.
  intros Hd. unfold UUID.hex_digit.
  destruct (d <? 10); rewrite N_ascii_embedding, ?Z2N.id; try lia.
Qed.

Lemma hex_digit_inj a b :
  0 <= a < 16 -> 0 <= b < 16 -> UUID.hex_digit a = UUID.hex_digit b -> a = b.
Proof.
  intros Ha Hb Heq.
  pose proof (hex_digit_code a Ha) as Ca. pose proof (hex_digit_code b Hb) as Cb.
  rewrite Heq in Ca. rewrite Ca in Cb.
  destruct (Z.ltb_spec a 10), (Z.ltb_spec b 10); lia.
Qed.

Lemma hex_digits_snoc n v :
  UUID.hex_digits (S n) v EmptyString
  = UUID.hex_digits n (v / 16) EmptyString
    +:+ String (UUID.hex_digit (v mod 16)) EmptyString.
Proof. simpl. apply hex_digits_acc. Qed.

Lemma app_inj_same_length a b c d :
  String.length a = String.length b -> a +:+ c = b +:+ d -> a = b /\ c = d.
Proof.
  revert b. induction a as [|x a IH]; intros [|y b] Hlen Heq; simpl in Hlen; try lia.
  - split; [reflexivity | exact Heq].
  - rewrite !append_cons in Heq. injection Heq as -> Heq.
    destruct (IH b) as [-> ->]; [lia | exact Heq | auto].
Qed.

Lemma mod16_step v m : 0 < m -> v mod (16 * m) = v mod 16 + 16 * ((v / 16) mod m).
Proof. intros Hm. apply Z.rem_mul_r; lia. Qed.

(** Two values have the same [n] digits exactly when they agree modulo
    [16 ^ n]. *)
Lemma hex_digits_eq_iff n a b :
  UUID.hex_digits n a EmptyString = UUID.hex_digits n b EmptyString
  <-> a mod 16 ^ Z.of_nat n = b mod 16 ^ Z.of_nat n.
Proof.
  revert a b. induction n as [|n IH]; intros a b.
  - simpl. rewrite !Z.mod_1_r. tauto.
  - rewrite !hex_digits_snoc, Nat2Z.inj_succ, Z.pow_succ_r by lia.
    assert (Hpos : 0 < 16 ^ Z.of_nat n) by (apply Z.pow_pos_nonneg; lia).
    rewrite !(mod16_step _ _ Hpos).
    pose proof (Z.mod_pos_bound a 16 ltac:(lia)) as Ha.
    pose proof (Z.mod_pos_bound b 16 ltac:(lia)) as Hb.
    split.
    + intros Heq. apply app_inj_same_length in Heq as [Hhi Hlo].
      2:{ rewrite !hex_digits_length. reflexivity. }
      injection Hlo as Hlo. apply hex_digit_inj in Hlo; [|lia..].
      apply IH in Hhi. lia.
    + intros Heq.
      assert (Hlo : a mod 16 = b mod 16).
      { pose proof (Z.mod_pos_bound (a / 16) (16 ^ Z.of_nat n) Hpos).
        pose proof (Z.mod_pos_bound (b / 16) (16 ^ Z.of_nat n) Hpos). lia. }
      assert (Hhi : (a / 16) mod 16 ^ Z.of_nat n = (b / 16) mod 16 ^ Z.of_nat n) by lia.
      apply IH in Hhi. rewrite Hhi, Hlo. reflexivity.
Qed.

Lemma fresh_pid_eq_iff rnd1 rnd2 :
  fresh_pid rnd1 = fresh_pid rnd2
  <-> (rnd1 / 2 ^ 96) mod 2 ^ 32 = (rnd2 / 2 ^ 96) mod 2 ^ 32.
Proof. rewrite !fresh_pid_digits. apply (hex_digits_eq_iff 8). Qed.

(** X11: two draws of the random bits give the same identifier exactly
    when they agree on bits 96 to 127: there are 2^32 identifiers, and 96
    of the 128 random bits are dropped. *)
Theorem fresh_pid_collides_iff rnd1 rnd2 :
  fresh_pid rnd1 = fresh_pid rnd2
  <-> (rnd1 / 2 ^ 96) mod 2 ^ 32 = (rnd2 / 2 ^ 96) mod 2 ^ 32.
Proof. apply fresh_pid_eq_iff. Qed.

Lemma hex_digits_all_hex n v acc :
  all_chars is_lower_hex acc = true ->
  all_chars is_lower_hex (UUID.hex_digits n v acc) = true.
Proof.
  revert v acc. induction n as [|n IH]; intros v acc Hacc; simpl; [exact Hacc|].
  apply IH. simpl. rewrite Hacc, andb_true_r.
  pose proof (Z.mod_pos_bound v 16 ltac:(lia)) as Hd.
  pose proof (hex_digit_code _ Hd) as Hc. unfold is_lower_hex.
  set (k := N_of_ascii _) in *.
  destruct (Z.ltb_spec (v mod 16) 10).
  - apply orb_true_iff. left. apply andb_true_iff. split; apply N.leb_le; lia.
  - apply orb_true_iff. right. apply andb_true_iff. split; apply N.leb_le; lia.
Qed.

(** X12: an identifier is made of digits and of the letters [a] to [f]
    only: no hyphen of the UUID's text gets into it. *)
Theorem fresh_pid_is_hex rnd : all_chars is_lower_hex (fresh_pid rnd) = true.
Proof. rewrite fresh_pid_digits. apply hex_digits_all_hex. reflexivity. Qed.

(** ** Several submits *)

Lemma submit_success `{PyLib} editors client lang rnd now w url w' :
  handle_submit editors client lang rnd now w = (NavigateTo url, w') ->
  exists code,
    editors !! client = Some code /\ Str.blank code = false
    /\ next_fault w = None
    /\ url = "/v/" +:+ fresh_pid rnd
    /\ w' = store (blob_of (fresh_pid rnd))
              (GcsObject (json_dumps (payload (fresh_pid rnd) code lang
                                        (isoformat (add_days (naive now) 30))))
                 "application/json")
              (sent (Upload (blob_of (fresh_pid rnd))
                       (json_dumps (payload (fresh_pid rnd) code lang
                                      (isoformat (add_days (naive now) 30))))) w).
Proof.
  intros Hs.
  destruct (submit_cases editors client lang rnd now w)
    as [Hc | [(code & e & _ & _ & _ & Hc) | (code & He & Hb & Hf & Hc)]];
    rewrite Hc in Hs; try discriminate Hs.
  injection Hs as <- <-. exists code. auto.
Qed.

(** Retrieval of an object that decodes and has not expired. *)
Lemma get_live `{PyLib} pid now w o data dt :
  next_fault w = None ->
  bucket w !! blob_of pid = Some o ->
  decode_record (content o) = inr (data, dt) ->
  datetime_gt (naive now) dt = inr false ->
  (get_from_gcs pid now w).1 = Some data.
Proof.
  intros Hf Hb Hd Hgt. rewrite (get_decoded _ _ _ _ _ _ Hf Hb Hd), Hgt. reflexivity.
Qed.

(** X13: two submits that both hand out a link, with different
    identifiers, leave both records in the bucket, each under its own
    identifier; each is retrieved, if the runtime reads back what it wrote
    and the record has not expired, whatever the other submit stored. *)
Theorem distinct_ids_keep_both `{PyLib} editors1 client1 lang1 rnd1 now1
    editors2 client2 lang2 rnd2 now2 w0 url1 w1 url2 w2 :
  handle_submit editors1 client1 lang1 rnd1 now1 w0 = (NavigateTo url1, w1) ->
  handle_submit editors2 client2 lang2 rnd2 now2 w1 = (NavigateTo url2, w2) ->
  fresh_pid rnd1 <> fresh_pid rnd2 ->
  exists code1 code2 text1 text2,
    editors1 !! client1 = Some code1
    /\ editors2 !! client2 = Some code2
    /\ text1 = json_dumps (payload (fresh_pid rnd1) code1 lang1
                             (isoformat (add_days (naive now1) 30)))
    /\ text2 = json_dumps (payload (fresh_pid rnd2) code2 lang2
                             (isoformat (add_days (naive now2) 30)))
    /\ bucket w2 !! (fresh_pid rnd1 +:+ ".json") = Some (GcsObject text1 "application/json")
    /\ bucket w2 !! (fresh_pid rnd2 +:+ ".json") = Some (GcsObject text2 "application/json")
    /\ (forall later fs data dt,
          decode_record text1 = inr (data, dt) ->
          datetime_gt (naive later) dt = inr false ->
          (get_from_gcs (fresh_pid rnd1) later (forecast (None :: fs) w2)).1 = Some data)
    /\ (forall later fs data dt,
          decode_record text2 = inr (data, dt) ->
          datetime_gt (naive later) dt = inr false ->
          (get_from_gcs (fresh_pid rnd2) later (forecast (None :: fs) w2)).1 = Some data).
Proof.
  intros Hs1 Hs2 Hne.
  apply submit_success in Hs1 as (code1 & He1 & _ & _ & _ & ->).
  apply submit_success in Hs2 as (code2 & He2 & _ & _ & _ & ->).
  eexists code1, code2, _, _.
  split; [exact He1|]. split; [exact He2|]. split; [reflexivity|]. split; [reflexivity|].
  assert (Hb1 : forall o2 rq2 o1 rq1,
             bucket (store (blob_of (fresh_pid rnd2)) o2
                       (sent rq2 (store (blob_of (fresh_pid rnd1)) o1 (sent rq1 w0))))
             !! blob_of (fresh_pid rnd1) = Some o1).
  { intros. simpl. rewrite lookup_insert_ne, lookup_insert_eq; [reflexivity|].
    intros Heq. apply blob_name_inj in Heq. congruence. }
  assert (Hb2 : forall o2 w, bucket (store (blob_of (fresh_pid rnd2)) o2 w)
                             !! blob_of (fresh_pid rnd2) = Some o2).
  { intros. apply lookup_insert_eq. }
  split; [apply Hb1|]. split; [apply Hb2|]. split.
  - intros later fs data dt Hd Hgt.
    eapply get_live; [reflexivity | apply Hb1 | exact Hd | exact Hgt].
  - intros later fs data dt Hd Hgt.
    eapply get_live; [reflexivity | apply Hb2 | exact Hd | exact Hgt].
Qed.

(** X14: two submits that both hand out a link, with random bits that
    agree on bits 96 to 127, hand out the same link, and the record of the
    second takes the place of the record of the first: the bucket is as if
    the first submit had not been made. *)
Theorem colliding_id_overwrites `{PyLib} editors1 client1 lang1 rnd1 now1
    editors2 client2 lang2 rnd2 now2 w0 url1 w1 url2 w2 :
  handle_submit editors1 client1 lang1 rnd1 now1 w0 = (NavigateTo url1, w1) ->
  handle_submit editors2 client2 lang2 rnd2 now2 w1 = (NavigateTo url2, w2) ->
  (rnd1 / 2 ^ 96) mod 2 ^ 32 = (rnd2 / 2 ^ 96) mod 2 ^ 32 ->
  url1 = url2
  /\ exists code2,
       editors2 !! client2 = Some code2
       /\ bucket w2
          = <[fresh_pid rnd1 +:+ ".json" :=
                GcsObject (json_dumps (payload (fresh_pid rnd1) code2 lang2
                                         (isoformat (add_days (naive now2) 30))))
                  "application/json"]> (bucket w0).
Proof.
  intros Hs1 Hs2 Hbits. apply fresh_pid_eq_iff in Hbits.
  apply submit_success in Hs1 as (code1 & He1 & _ & _ & -> & ->).
  apply submit_success in Hs2 as (code2 & He2 & _ & _ & -> & ->).
  rewrite <- Hbits. split; [reflexivity|]. exists code2. split; [exact He2|].
  simpl. apply insert_insert_eq.
Qed.

Lemma distinct_ids_keep_both_witness :
  is_Some (bucket (handle_submit (H:=PyRef.lib) Sample2.other_editors "client-3" "python"
                     Sample2.far_rnd Sample.noon
                     (handle_submit (H:=PyRef.lib) Sample.editors "client-1" "sql" Sample.rnd
                        Sample.noon Sample.empty_world).2).2 !! "1b9d6bcd.json")
  /\ is_Some (bucket (handle_submit (H:=PyRef.lib) Sample2.other_editors "client-3" "python"
                        Sample2.far_rnd Sample.noon
                        (handle_submit (H:=PyRef.lib) Sample.editors "client-1" "sql"
                           Sample.rnd Sample.noon Sample.empty_world).2).2
              !! "deadbeef.json").
Proof.
  destruct (distinct_ids_keep_both (H:=PyRef.lib)
              Sample.editors "client-1" "sql" Sample.rnd Sample.noon
              Sample2.other_editors "client-3" "python" Sample2.far_rnd Sample.noon
              Sample.empty_world
              "/v/1b9d6bcd"
              (handle_submit (H:=PyRef.lib) Sample.editors "client-1" "sql" Sample.rnd
                 Sample.noon Sample.empty_world).2
              "/v/deadbeef"
              (handle_submit (H:=PyRef.lib) Sample2.other_editors "client-3" "python"
                 Sample2.far_rnd Sample.noon
                 (handle_submit (H:=PyRef.lib) Sample.editors "client-1" "sql" Sample.rnd
                    Sample.noon Sample.empty_world).2).2)
    as (c1 & c2 & t1 & t2 & _ & _ & _ & _ & H1 & H2 & _).
  - vm_compute. reflexivity.
  - vm_compute. reflexivity.
  - vm_compute. discriminate.
  - split; eexists; [exact H1 | exact H2].
Defined.

Lemma colliding_id_overwrites_witness :
  "/v/1b9d6bcd" = "/v/1b9d6bcd"
  /\ exists code2,
       Sample2.other_editors !! "client-3" = Some code2
       /\ bucket (handle_submit (H:=PyRef.lib) Sample2.other_editors "client-3" "python"
                    Sample2.near_rnd Sample.noon
                    (handle_submit (H:=PyRef.lib) Sample.editors "client-1" "sql" Sample.rnd
                       Sample.noon Sample.empty_world).2).2
          = <[fresh_pid Sample.rnd +:+ ".json" :=
                GcsObject (json_dumps (PyLib:=PyRef.lib)
                             (payload (fresh_pid Sample.rnd) code2 "python"
                                (isoformat (PyLib:=PyRef.lib) (add_days (naive Sample.noon) 30))))
                  "application/json"]> (bucket Sample.empty_world).
Proof.
  apply (colliding_id_overwrites (H:=PyRef.lib)
           Sample.editors "client-1" "sql" Sample.rnd Sample.noon
           Sample2.other_editors "client-3" "python" Sample2.near_rnd Sample.noon
           Sample.empty_world
           "/v/1b9d6bcd"
           (handle_submit (H:=PyRef.lib) Sample.editors "client-1" "sql" Sample.rnd
              Sample.noon Sample.empty_world).2
           "/v/1b9d6bcd").
  - vm_compute. reflexivity.
  - vm_compute. reflexivity.
  - vm_compute. reflexivity.
Defined.

(** ** What the bucket can hold *)

(** X15: in every world the service can reach from an empty bucket, each
    object is the JSON text, of content type [application/json], of a
    record built by a submit: it sits under the [id] of the record followed
    by [.json], that identifier was handed out and is eight characters
    long, and the [code] of the record is not blank. *)
Theorem reachable_objects_are_records `{PyLib} w ids :
  reachable w ids ->
  forall name o,
    bucket w !! name = Some o ->
    exists pid code lang expiry,
      pid ∈ ids
      /\ name = pid +:+ ".json"
      /\ o = GcsObject (json_dumps (payload pid code lang expiry)) "application/json"
      /\ Str.len pid = 8%nat
      /\ Str.blank code = false.
Proof.
  induction 1 as [fs | w ids fs _ IH | w ids editors client lang rnd now _ IH
                 | w ids paste_id now _ IH]; intros name o Hin.
  - simpl in Hin. rewrite lookup_empty in Hin. discriminate Hin.
  - apply IH, Hin.
  - assert (Hold : bucket w !! name = Some o ->
                   exists pid code lang0 expiry,
                     pid ∈ option_list (created_id (handle_submit editors client lang rnd now w).1)
                           ++ ids
                     /\ name = pid +:+ ".json"
                     /\ o = GcsObject (json_dumps (payload pid code lang0 expiry))
                              "application/json"
                     /\ Str.len pid = 8%nat /\ Str.blank code = false).
    { intros Hb. destruct (IH _ _ Hb) as (pid & code & l & ex & Hpid & Hrest).
      exists pid, code, l, ex. split; [|exact Hrest]. apply elem_of_app. auto. }
    destruct (submit_cases editors client lang rnd now w)
      as [Hc | [(code & e & _ & _ & _ & Hc) | (code & He & Hb & Hf & Hc)]];
      rewrite Hc in *; simpl in Hin; auto.
    destruct (decide (blob_of (fresh_pid rnd) = name)) as [<-|Hne].
    + rewrite lookup_insert_eq in Hin. injection Hin as <-.
      exists (fresh_pid rnd), code, lang, (isoformat (add_days (naive now) 30)).
      split; [simpl; apply elem_of_cons; auto|].
      split; [reflexivity|]. split; [reflexivity|].
      split; [apply fresh_pid_length | exact Hb].
    + rewrite lookup_insert_ne in Hin by exact Hne. auto.
  - rewrite view_world in Hin.
    destruct (get_frame paste_id now w) as [Hbk _]. rewrite Hbk in Hin.
    apply IH, Hin.
Qed.

Lemma reachable_objects_are_records_witness :
  exists pid code lang expiry,
    pid ∈ ["1b9d6bcd"]
    /\ "1b9d6bcd.json" = pid +:+ ".json"
    /\ GcsObject
         (PyRef.json_text
            "{'id': '1b9d6bcd', 'code': 'SELECT 1;', 'lang': 'sql', 'expires_at': '2025-01-31T12:00:00'}")
         "application/json"
       = GcsObject (json_dumps (PyLib:=PyRef.lib) (payload pid code lang expiry))
           "application/json"
    /\ Str.len pid = 8%nat
    /\ Str.blank code = false.
Proof.
  apply (reachable_objects_are_records (H:=PyRef.lib)
           (handle_submit (H:=PyRef.lib) Sample.editors "client-1" "sql" Sample.rnd Sample.noon
              Sample.empty_world).2
           ["1b9d6bcd"]).
  - apply (reach_submit (H:=PyRef.lib) Sample.empty_world [] Sample.editors "client-1" "sql"
             Sample.rnd Sample.noon (reach_start [])).
  - vm_compute. reflexivity.
Defined.

(** ** The editors of the page *)

Lemma texts_refresh eds client lang other :
  texts (refresh_editor eds client lang) !! other
  = if decide (client = other)
    then Some (default EmptyString (texts eds !! client))
    else texts eds !! other.
Proof.
  unfold texts, refresh_editor. rewrite lookup_fmap, lookup_insert.
  destruct (decide (client = other)) as [->|Hne]; simpl.
  - rewrite lookup_fmap. destruct (eds !! other); reflexivity.
  - rewrite lookup_fmap. reflexivity.
Qed.

(** X16: making the editor of a client anew, as a change of language
    does, changes the outcome of no submit, neither of that client nor of
    another: the text typed so far is carried over to the new editor, and
    a client that had no editor gets an empty one, which a submit refuses
    just as it refuses a missing editor. *)
Theorem refresh_keeps_submissions `{PyLib} eds client lang_new submitter lang rnd now w :
  handle_submit (texts (refresh_editor eds client lang_new)) submitter lang rnd now w
  = handle_submit (texts eds) submitter lang rnd now w.
Proof.
  unfold handle_submit. rewrite texts_refresh.
  destruct (decide (client = submitter)) as [->|Hne]; [|reflexivity].
  destruct (texts eds !! submitter) as [code|]; reflexivity.
Qed.

(** X17: a page that has just been opened by a client without an editor
    holds an empty editor in the language [sql]; submitted as it is, it is
    answered "Snippet is empty!" and no request goes to the store. *)
Theorem fresh_page_is_empty `{PyLib} eds client lang rnd now w :
  eds !! client = None ->
  index eds client !! client = Some (CodeMirror EmptyString "sql")
  /\ handle_submit (texts (index eds client)) client lang rnd now w
     = (Notify "Snippet is empty!" Warning, w).
Proof.
  intros He. unfold index. split.
  - unfold refresh_editor. rewrite He. apply lookup_insert_eq.
  - apply submit_blank. rewrite texts_refresh, decide_True by reflexivity.
    unfold texts. rewrite lookup_fmap, He. reflexivity.
Qed.

Lemma fresh_page_is_empty_witness :
  index ∅ "client-9" !! "client-9" = Some (CodeMirror EmptyString "sql")
  /\ handle_submit (H:=PyRef.lib) (texts (index ∅ "client-9")) "client-9" "sql" Sample.rnd
       Sample.noon Sample.empty_world
     = (Notify "Snippet is empty!" Warning, Sample.empty_world).
Proof.
  apply (fresh_page_is_empty (H:=PyRef.lib) ∅ "client-9").
  vm_compute. reflexivity.
Defined.

(** X18: changing the language keeps the text and sets the language of the
    editor, the last change winning over the earlier ones; the editors of
    the other clients are not touched, and no editor is ever removed. *)
Theorem refresh_editor_frame eds client first second :
  refresh_editor (refresh_editor eds client first) client second
  = refresh_editor eds client second
  /\ (forall editor,
        eds !! client = Some editor ->
        refresh_editor eds client second !! client
        = Some (CodeMirror (cm_value editor) second))
  /\ (forall other, other <> client ->
        refresh_editor eds client second !! other = eds !! other)
  /\ (forall other, is_Some (eds !! other) ->
        is_Some (refresh_editor eds client second !! other)).
Proof.
  unfold refresh_editor. repeat split.
  - rewrite lookup_insert_eq, insert_insert_eq. simpl. reflexivity.
  - intros editor ->. apply lookup_insert_eq.
  - intros other Hne. apply lookup_insert_ne. congruence.
  - intros other Hin. apply lookup_insert_is_Some'. auto.
Qed.

(** ** The card of a paste *)

(** [escaped_code], one character at a time. *)
Lemma escaped_cons c s :
  escaped_code (String c s)
  = if Ascii.eqb c backtick || Ascii.eqb c dollar
    then String backslash (String c (escaped_code s))
    else String c (escaped_code s).
Proof.
  unfold escaped_code. simpl.
  destruct (Ascii.eqb c backtick) eqn:Hbt.
  - apply Ascii.eqb_eq in Hbt. subst c. reflexivity.
  - simpl. destruct (Ascii.eqb c dollar) eqn:Hd.
    + apply Ascii.eqb_eq in Hd. subst c. reflexivity.
    + reflexivity.
Qed.

Lemma escaped_guarded prev code : guarded prev (escaped_code code) = true.
Proof.
  revert prev. induction code as [|c s IH]; intros prev; [reflexivity|].
  rewrite escaped_cons.
  destruct (Ascii.eqb c backtick || Ascii.eqb c dollar) eqn:Hsp.
  - assert (Hbs : Ascii.eqb backslash backtick || Ascii.eqb backslash dollar = false)
      by reflexivity.
    cbn [guarded]. rewrite Hbs, Hsp, IH. reflexivity.
  - cbn [guarded]. rewrite Hsp, IH. reflexivity.
Qed.

(** X19: in the text [escaped_code] puts between the backticks of the
    copy script, every backtick and every dollar of the snippet stands
    right after a backslash. *)
Theorem escaped_code_guards prev code : guarded prev (escaped_code code) = true.
Proof. apply escaped_guarded. Qed.

Lemma escaped_head_plain c rest code :
  escaped_code code = String c rest ->
  Ascii.eqb c backtick || Ascii.eqb c dollar = false.
Proof.
  intros Heq. pose proof (escaped_guarded backtick code) as Hg.
  rewrite Heq in Hg. cbn [guarded] in Hg.
  destruct (Ascii.eqb c backtick || Ascii.eqb c dollar); [discriminate Hg | reflexivity].
Qed.

(** X20: escaping loses nothing: two snippets with the same escaped text
    are the same snippet. *)
Theorem escaped_code_injective code1 code2 :
  escaped_code code1 = escaped_code code2 -> code1 = code2.
Proof.
  revert code2. induction code1 as [|c1 s1 IH]; intros [|c2 s2] Heq.
  - reflexivity.
  - rewrite escaped_cons in Heq.
    destruct (Ascii.eqb c2 backtick || Ascii.eqb c2 dollar); discriminate Heq.
  - rewrite escaped_cons in Heq.
    destruct (Ascii.eqb c1 backtick || Ascii.eqb c1 dollar); discriminate Heq.
  - rewrite !escaped_cons in Heq.
    destruct (Ascii.eqb c1 backtick || Ascii.eqb c1 dollar) eqn:H1,
             (Ascii.eqb c2 backtick || Ascii.eqb c2 dollar) eqn:H2.
    + injection Heq as -> Heq. f_equal. apply IH, Heq.
    + injection Heq as <- Heq. symmetry in Heq.
      apply escaped_head_plain in Heq. congruence.
    + injection Heq as -> Heq.
      apply escaped_head_plain in Heq. congruence.
    + injection Heq as -> Heq. f_equal. apply IH, Heq.
Qed.

(** X21: the escaped text is the snippet itself exactly when the snippet
    holds neither a backtick nor a dollar. *)
Theorem escaped_code_plain code :
  escaped_code code = code
  <-> all_chars (fun c => negb (Ascii.eqb c backtick || Ascii.eqb c dollar)) code = true.
Proof.
  induction code as [|c s IH]; [simpl; tauto|].
  rewrite escaped_cons. cbn [all_chars].
  destruct (Ascii.eqb c backtick || Ascii.eqb c dollar) eqn:Hsp; simpl.
  - split; [|discriminate]. intros Heq. injection Heq as Hc _.
    subst c. discriminate Hsp.
  - rewrite <- IH. split; [intros [= Heq]; exact Heq | intros ->; reflexivity].
Qed.

(** X22: the five labels [sql], [python], [yaml], [javascript] and [text]
    are given the display names "SQL", "Python", "Terraform / YAML",
    "JavaScript" and "Plain Text", none of which is its own label; any
    other label is given back as it is. *)
Theorem language_label_fallback lang :
  language_label <$> ["sql"; "python"; "yaml"; "javascript"; "text"]
  = ["SQL"; "Python"; "Terraform / YAML"; "JavaScript"; "Plain Text"]
  /\ (lang ∈ ["sql"; "python"; "yaml"; "javascript"; "text"] <->
      language_label lang <> lang)
  /\ (lang ∉ ["sql"; "python"; "yaml"; "javascript"; "text"] ->
      LANG_OPTIONS !! lang = None /\ language_label lang = lang).
Proof.
  split; [vm_compute; reflexivity|].
  assert (Hin : forall l : string,
             In l ["sql"; "python"; "yaml"; "javascript"; "text"] ->
             language_label l <> l).
  { intros l [<-|[<-|[<-|[<-|[<-|[]]]]]]; vm_compute; discriminate. }
  assert (Hout : lang ∉ ["sql"; "python"; "yaml"; "javascript"; "text"] ->
                 LANG_OPTIONS !! lang = None).
  { intros Hn. unfold LANG_OPTIONS.
    rewrite !lookup_insert_ne, lookup_singleton_ne; [reflexivity|..];
      intros <-; apply Hn; set_solver. }
  split; [|intros Hn; unfold language_label; rewrite (Hout Hn); auto].
  split.
  - intros Hl. apply Hin, list_elem_of_In, Hl.
  - intros Hne.
    destruct (decide (lang ∈ ["sql"; "python"; "yaml"; "javascript"; "text"]))
      as [Hl|Hn]; [exact Hl|].
    exfalso. apply Hne. unfold language_label. rewrite (Hout Hn). reflexivity.
Qed.

(** X23: a stored record that decodes, has not expired, and has neither
    [code] nor [lang] takes the page to the branch of the card all the
    same; what is computed there are the defaults of [data.get]: an empty
    snippet and the language [text] for [ui.code], the label "Plain Text",
    and the first ten characters of the [expires_at] of the record. *)
Theorem card_defaults `{PyLib} pid now w o items e :
  next_fault w = None ->
  bucket w !! (pid +:+ ".json") = Some o ->
  decode_record (content o) = inr (PDict items, naive e) ->
  now <= e ->
  dict_lookup "code" items = None ->
  dict_lookup "lang" items = None ->
  (view_paste pid now w).1 = PasteCard (PDict items)
  /\ exists expires_at,
       dict_lookup "expires_at" items = Some (PStr expires_at)
       /\ view_card (PDict items)
          = Some (Card "Plain Text" (Str.take 10 expires_at) EmptyString "text"
                    ("navigator.clipboard.writeText(" +:+ String backtick (String backtick ")"))).
Proof.
  intros Hf Hb Hd Hle Hc Hl. split.
  - apply view_some. eapply get_live; [exact Hf | exact Hb | exact Hd |].
    unfold datetime_gt. simpl. f_equal. apply Z.ltb_ge. lia.
  - unfold decode_record in Hd.
    destruct (json_loads (content o)) as [e1|data]; [discriminate Hd|].
    destruct (getitem data "expires_at") as [e2|field] eqn:Hg; [discriminate Hd|].
    destruct (fromisoformat field) as [e3|dt] eqn:Hiso; [discriminate Hd|].
    injection Hd as -> _. simpl in Hg.
    destruct (dict_lookup "expires_at" items) as [v|] eqn:Hv; [|discriminate Hg].
    injection Hg as ->.
    destruct field as [| | | |expires_at| |]; try discriminate Hiso.
    exists expires_at. split; [reflexivity|].
    unfold view_card, dict_get. rewrite Hc, Hl, Hv. reflexivity.
Qed.

Lemma card_defaults_witness :
  (view_paste (H:=PyRef.lib) "bare" Sample.noon Sample2.bare_world).1
  = PasteCard (PDict [("expires_at", PStr "2099-01-01T00:00:00")])
  /\ exists expires_at,
       dict_lookup "expires_at" [("expires_at", PStr "2099-01-01T00:00:00")]
       = Some (PStr expires_at)
       /\ view_card (PDict [("expires_at", PStr "2099-01-01T00:00:00")])
          = Some (Card "Plain Text" (Str.take 10 expires_at) EmptyString "text"
                    ("navigator.clipboard.writeText(" +:+ String backtick (String backtick ")"))).
Proof.
  apply (card_defaults (H:=PyRef.lib) "bare" Sample.noon Sample2.bare_world
           (GcsObject (PyRef.json_text "{'expires_at': '2099-01-01T00:00:00'}")
              "application/json")
           [("expires_at", PStr "2099-01-01T00:00:00")]
           (PyRef.clock 2099 1 1 0 0 0)).
  - vm_compute. reflexivity.
  - vm_compute. reflexivity.
  - vm_compute. reflexivity.
  - vm_compute. discriminate.
  - vm_compute. reflexivity.
  - vm_compute. reflexivity.
Defined.

(** X24: the page of a paste that has just been created takes the branch
    of the card, and what it computes there comes from what was submitted:
    the snippet as typed and the language selected are the arguments it
    hands to [ui.code], the label is that of the language selected, the
    text put after "Valid until: " is the first ten characters of the ISO
    text of the time of the create plus thirty days, and the copy script is
    built from the escaped snippet. The runtime is asked to read back the
    JSON text and the ISO text it wrote for this record. *)
Theorem created_paste_card `{PyLib} editors client code lang rnd now later w url w1 :
  editors !! client = Some code ->
  handle_submit editors client lang rnd now w = (NavigateTo url, w1) ->
  next_fault w1 = None ->
  json_loads (json_dumps (payload (fresh_pid rnd) code lang (isoformat (add_days (naive now) 30))))
  = inr (payload (fresh_pid rnd) code lang (isoformat (add_days (naive now) 30))) ->
  parse_isoformat (isoformat (add_days (naive now) 30)) = inr (add_days (naive now) 30) ->
  later <= now + 30 * micros_per_day ->
  exists data,
    (view_paste (Str.drop 3 url) later w1).1 = PasteCard data
    /\ view_card data
       = Some (Card (language_label lang)
                 (Str.take 10 (isoformat (add_days (naive now) 30)))
                 code lang
                 ("navigator.clipboard.writeText(" +:+ String backtick (escaped_code code)
                    +:+ String backtick ")")).
Proof.
  intros He Hs Hf1 Hjson Hiso Hlater.
  apply submit_success in Hs as (code' & He' & _ & _ & -> & ->).
  rewrite He in He'. injection He' as <-.
  set (expiry := isoformat (add_days (naive now) 30)) in *.
  set (record := payload (fresh_pid rnd) code lang expiry) in *.
  exists record. split; [|reflexivity].
  apply view_some.
  apply (get_live (fresh_pid rnd) later _
           (GcsObject (json_dumps record) "application/json") record
           (naive (now + 30 * micros_per_day)));
    [exact Hf1 | apply lookup_insert_eq | |].
  - simpl. unfold decode_record. rewrite Hjson. simpl. fold expiry. rewrite Hiso.
    reflexivity.
  - unfold datetime_gt. simpl. f_equal. apply Z.ltb_ge. lia.
Qed.

Lemma created_paste_card_witness :
  exists data,
    (view_paste (H:=PyRef.lib) (Str.drop 3 "/v/1b9d6bcd") (Sample.noon + 5000000)
       (handle_submit (H:=PyRef.lib) Sample.editors "client-1" "sql" Sample.rnd
          Sample.noon Sample.empty_world).2).1 = PasteCard data
    /\ view_card data
       = Some (Card (language_label "sql")
                 (Str.take 10 (isoformat (PyLib:=PyRef.lib) (add_days (naive Sample.noon) 30)))
                 "SELECT 1;" "sql"
                 ("navigator.clipboard.writeText(" +:+ String backtick (escaped_code "SELECT 1;")
                    +:+ String backtick ")")).
Proof.
  apply (created_paste_card (H:=PyRef.lib) Sample.editors "client-1" "SELECT 1;" "sql"
           Sample.rnd Sample.noon (Sample.noon + 5000000) Sample.empty_world).
  - vm_compute. reflexivity.
  - vm_compute. reflexivity.
  - vm_compute. reflexivity.
  - vm_compute. reflexivity.
  - vm_compute. reflexivity.
  - vm_compute. discriminate.
Defined.

Example created_card_example :
  view_card Sample.record
  = Some (Card "SQL" "2025-01-31" "SELECT 1;" "sql"
            ("navigator.clipboard.writeText(" +:+ String backtick ("SELECT 1;" +:+ String backtick ")")))
  /\ escaped_code ("echo " +:+ String dollar ("HOME " +:+ String backtick ("date" +:+ String backtick EmptyString)))
     = "echo " +:+ String backslash (String dollar ("HOME " +:+ String backslash (String backtick
         ("date" +:+ String backslash (String backtick EmptyString))))).
Proof. vm_compute. split; reflexivity. Qed.

(** ** What a retrieve prints *)

(** X25: the retrieve of a record that decodes, with a naive expiry,
    prints the line "Paste", the identifier, "expired." when the clock has
    passed the expiry and prints nothing when it serves the record; the
    retrieve of an identifier with no object prints nothing either. *)
Theorem expiry_is_logged `{PyLib} pid now w :
  next_fault w = None ->
  (forall o data e,
     bucket w !! (pid +:+ ".json") = Some o ->
     decode_record (content o) = inr (data, naive e) ->
     stdout (get_from_gcs pid now w).2
     = stdout w ++ (if e <? now then ["Paste " +:+ pid +:+ " expired."] else []))
  /\ (bucket w !! (pid +:+ ".json") = None ->
      stdout (get_from_gcs pid now w).2 = stdout w).
Proof.
  intros Hf. split.
  - intros o data e Hb Hd. rewrite (get_decoded _ _ _ _ _ _ Hf Hb Hd). simpl.
    destruct (e <? now); simpl; [reflexivity | rewrite app_nil_r; reflexivity].
  - intros Hb. rewrite (get_absent _ _ _ Hf Hb). reflexivity.
Qed.

Lemma expiry_is_logged_witness :
  stdout (get_from_gcs (H:=PyRef.lib) "abc12345" (PyRef.clock 2025 3 1 0 0 0)
            Sample.stocked_world).2
  = ["Paste abc12345 expired."].
Proof.
  destruct (expiry_is_logged (H:=PyRef.lib) "abc12345" (PyRef.clock 2025 3 1 0 0 0)
              Sample.stocked_world) as [Hlog _].
  - vm_compute. reflexivity.
  - apply (Hlog (GcsObject (PyRef.dumps Sample.record) "application/json") Sample.record
             (PyRef.clock 2025 1 31 12 0 0)); vm_compute; reflexivity.
Defined.

Lemma escaped_code_injective_witness :
  "echo " +:+ String dollar "HOME" = "echo " +:+ String dollar "HOME".
Proof.
  apply (escaped_code_injective ("echo " +:+ String dollar "HOME")
           ("echo " +:+ String dollar "HOME")).
  vm_compute. reflexivity.
Defined.

(** ** Exceptions that leave the handlers *)

(** X26: the one exception that can leave [handle_submit] is the
    [OverflowError] of the expiry, raised before the [try] block when the
    snippet is not blank and the clock plus thirty days is out of the range
    of [datetime]; the world is then as it was: no request was sent and
    nothing was notified. In every other case the call returns, with the
    action and the world of [handle_submit]; an exception of the upload
    never leaves it. *)
Theorem submit_call_outcomes `{PyLib} editors client lang rnd now w :
  match (handle_submit_call editors client lang rnd now w).1 with
  | inl e =>
      e = Exc OverflowError "date value out of range"
      /\ ~ (0 <= now + 30 * micros_per_day <= datetime_max)
      /\ (exists code, editors !! client = Some code /\ Str.blank code = false)
      /\ (handle_submit_call editors client lang rnd now w).2 = w
  | inr action =>
      action = (handle_submit editors client lang rnd now w).1
      /\ (handle_submit_call editors client lang rnd now w).2
         = (handle_submit editors client lang rnd now w).2
      /\ (Str.blank (default EmptyString (editors !! client)) = true
          \/ 0 <= now + 30 * micros_per_day <= datetime_max)
  end.
Proof.
  destruct (editors !! client) as [code|] eqn:He.
  2:{ rewrite submit_call_blank, submit_blank by (rewrite He; exact I).
      simpl. auto. }
  destruct (Str.blank code) eqn:Hb.
  { rewrite submit_call_blank, submit_blank by (rewrite He; exact Hb).
    simpl. auto. }
  destruct (decide (0 <= now + 30 * micros_per_day <= datetime_max)) as [Hr|Hr].
  - rewrite (submit_call_in_range _ _ _ _ _ _ _ He Hb Hr). simpl. auto.
  - rewrite (submit_call_overflow _ _ _ _ _ _ _ He Hb Hr). simpl.
    split; [reflexivity|]. split; [exact Hr|]. split; [|reflexivity].
    exists code. auto.
Qed.

Example submit_overflow_example :
  PyRef.iso_format (naive datetime_max) = "9999-12-31T23:59:59.999999"
  /\ PyRef.iso_format (naive Sample2.last_days) = "9999-12-15T00:00:00"
  /\ handle_submit_call (H:=PyRef.lib) Sample.editors "client-1" "sql" Sample.rnd
       Sample2.last_days Sample.down_world
     = (inl (Exc OverflowError "date value out of range"), Sample.down_world)
  /\ handle_submit_call (H:=PyRef.lib) Sample.editors "client-2" "sql" Sample.rnd
       Sample2.last_days Sample.down_world
     = (inr (Notify "Snippet is empty!" Warning), Sample.down_world).
Proof. vm_compute. repeat split; reflexivity. Qed.

(** X27: no exception leaves [get_from_gcs]: whatever the storage service
    does, whatever text the object holds and whatever the clock reads, the
    call returns, a record or [None]; each exception of the [try] block is
    caught by one of the two [except] clauses, and they raise none. *)
Theorem retrieve_never_raises `{PyLib} pid now w :
  (get_from_gcs_call pid now w).1 = inr (get_from_gcs pid now w).1
  /\ (get_from_gcs_call pid now w).2 = (get_from_gcs pid now w).2
  /\ forall e w1,
       get_from_gcs_try pid now w = (inl e, w1) ->
       get_from_gcs_call pid now w
       = (inr None,
          if is_NotFound e then w1 else printed ("Error reading GCS: " +:+ exc_str e) w1).
Proof.
  rewrite get_from_gcs_returns. split; [reflexivity|]. split; [reflexivity|].
  intros e w1 Htry. rewrite <- get_from_gcs_returns.
  unfold get_from_gcs_call, try_except. rewrite Htry, except_run. reflexivity.
Qed.
